(** * Event and change-point analysis of a price series

    A shallow embedding of [scripts/event_change_analysis.py]
    (class [EventChangeAnalyzer]) and the properties of its operations.

    Conventions of the embedding.
    - A [Timestamp] is a calendar date counted in days, so that
      [event_date - timedelta(days=h)] is [event_date - h].
    - A price is a rational number (the spec's "real"); rounding and
      infinities of IEEE arithmetic are outside the model.  The one
      not-a-number that pandas and numpy produce structurally (the mean of
      an empty series, the first entry of [pct_change], the median of no
      draws) is kept: a [float] is [option Q] with [None] read as NaN.
      A quotient of the model is the code's quotient only when the divisor
      is not zero: there the code's float division answers inf or nan,
      which [Q] does not have, and the properties about the value of a
      quotient of prices assume the divisor is not zero.
    - The label slices [.loc[:d]] and [.loc[d:]] are modelled as pandas
      answers them on a strictly increasing index ([sorted_index]); on
      another index pandas answers otherwise.
    - Python exceptions are values of [exn]; every exception of the model
      derives from Python's [Exception].
    - The analyzer object, its logger and the screen (stdout and the
      matplotlib figures) form the [World] that every method threads.
    - ruptures, PyMC, SciPy and the date parser of pandas are not part of
      the repository: they are the fields of [Libs].
    - The preprocessor ([scripts/data_preprocessor.py]), the logger set-up
      ([scripts/logger.py]) and the visualizer
      ([scripts/data_visualizer.py]) are embedded in the same way, each
      method passing its object explicitly; the file system, the download,
      the CSV reader and the rendering are the fields of [Io], [Os] and
      [Graphics]. *)

From Stdlib Require Import ZArith QArith List Ascii String Bool Lia Sorted.
Import ListNotations.

Open Scope Z_scope.

(** ** Python values, exceptions and outcomes *)

Module Py.

Inductive exn : Type :=
| KeyError
| IndexError
| ValueError
| LibraryError (name : string).

Definition is_KeyError (e : exn) : bool :=
  match e with KeyError => true | _ => false end.

(** [except Exception] catches every exception of the model. *)
Definition is_Exception (_ : exn) : bool := true.

Inductive outcome (A : Type) : Type :=
| Returned (a : A)
| Raised (e : exn).

Arguments Returned {A} a.
Arguments Raised {A} e.

(** [l[:-1]] *)
Definition all_but_last {A} (l : list A) : list A := removelast l.

(** [d[k] = v] on an insertion-ordered dict: an existing key keeps its
    place, a new key goes last. *)
Fixpoint dict_set {V} (d : list (string * V)) (k : string) (v : V)
  : list (string * V) :=
  match d with
  | [] => [(k, v)]
  | (k', v') :: r =>
      if String.eqb k' k then (k, v) :: r else (k', v') :: dict_set r k v
  end.

(** [int(x)] on a float: truncation toward zero. *)
Definition int_of_Q (q : Q) : Z := Z.quot (Qnum q) (Zpos (Qden q)).

End Py.
Export Py.

(** ** Floats with NaN *)

Definition float : Type := option Q.
Definition NaN : float := None.

Definition flift2 (op : Q -> Q -> Q) (a b : float) : float :=
match a, b with
| Some x, Some y => Some (op x y)
| _, _ => NaN
end.

Definition fillna (v : Q) (a : float) : Q :=
match a with Some x => x | None => v end.

Definition Qsum (l : list Q) : Q := fold_right Qplus 0%Q l.

(** ** The part of pandas and numpy the analyzer uses *)

Definition Timestamp : Type := Z.

(** [timedelta(days=n)] *)
Definition timedelta (days : Z) : Z := days.

(** A frame indexed by ['Date'] with one column ['Price']. *)
Definition DataFrame : Type := list (Timestamp * Q).

Module Pandas.

Definition index (df : DataFrame) : list Timestamp := map fst df.
Definition Price (df : DataFrame) : list Q := map snd df.

(** The data model's invariant: timestamps strictly increasing. *)
Fixpoint increasing (l : list Timestamp) : bool :=
  match l with
  | a :: ((b :: _) as r) => (a <? b) && increasing r
  | _ => true
  end.

Definition sorted_index (df : DataFrame) : bool := increasing (index df).

(** [Series.mean()], [np.mean]: NaN on no data. *)
Definition mean (l : list Q) : float :=
  match l with
  | [] => NaN
  | _ => Some (Qsum l / inject_Z (Z.of_nat (List.length l)))%Q
  end.

(** [np.cumsum], [np.cumprod]: [out[0] = a[0]], [out[i] = out[i-1] op a[i]]. *)
Fixpoint accumulate_from (op : Q -> Q -> Q) (acc : Q) (l : list Q) : list Q :=
  match l with
  | [] => []
  | x :: r => op acc x :: accumulate_from op (op acc x) r
  end.

Definition accumulate (op : Q -> Q -> Q) (l : list Q) : list Q :=
  match l with
  | [] => []
  | x :: r => x :: accumulate_from op x r
  end.

(** pandas' [na_accum_func] with [skipna=True]: NaN is replaced by the
    operation's unit, the values are accumulated, NaN is put back. *)
Definition na_accum (op : Q -> Q -> Q) (unit_ : Q) (s : list float)
  : list float :=
  map (fun p : float * Q => match fst p with Some _ => Some (snd p) | None => NaN end)
      (combine s (accumulate op (map (fillna unit_) s))).

Definition cumsum : list float -> list float := na_accum Qplus 0%Q.
Definition cumprod : list float -> list float := na_accum Qmult 1%Q.

(** [Series.pct_change()]: [s / s.shift(1) - 1], NaN at position 0.  The
    entry after a zero price is inf or nan in pandas and outside the
    model. *)
Fixpoint pct_change_from (prev : Q) (l : list Q) : list float :=
  match l with
  | [] => []
  | x :: r => Some (x / prev - 1)%Q :: pct_change_from x r
  end.

Definition pct_change (l : list Q) : list float :=
  match l with
  | [] => []
  | x :: r => NaN :: pct_change_from x r
  end.

(** [Series.add(1)] *)
Definition add (v : Q) (s : list float) : list float :=
  map (fun a => flift2 Qplus a (Some v)) s.

(** Positional access [s.iloc[i]], [index[i]] with a Python integer:
    negative positions count from the end, anything else out of bounds
    raises IndexError. *)
Definition iloc {A} (l : list A) (i : Z) : outcome A :=
  let n := Z.of_nat (List.length l) in
  let j := if i <? 0 then n + i else i in
  if (0 <=? j) && (j <? n) then
    match nth_error l (Z.to_nat j) with
    | Some a => Returned a
    | None => Raised IndexError
    end
  else Raised IndexError.

(** [df.loc[d, 'Price']] on a unique index: KeyError when [d] is absent. *)
Fixpoint lookup (df : DataFrame) (d : Timestamp) : option Q :=
  match df with
  | [] => None
  | (t, p) :: r => if t =? d then Some p else lookup r d
  end.

Definition loc (df : DataFrame) (d : Timestamp) : outcome Q :=
  match lookup df d with
  | Some p => Returned p
  | None => Raised KeyError
  end.

(** Label slices [df.loc[:d]] and [df.loc[d:]] on a strictly increasing
    index, both ends included.  On another index pandas answers
    otherwise (KeyError for an absent label on a non-monotonic index, the
    rows from the top down to [d] on a decreasing one): the two
    definitions stand for the code under [sorted_index] only. *)
Definition loc_upto (df : DataFrame) (d : Timestamp) : DataFrame :=
  filter (fun r => fst r <=? d) df.

Definition loc_from (df : DataFrame) (d : Timestamp) : DataFrame :=
  filter (fun r => d <=? fst r) df.

(** [df[(df.index >= lo) & (df.index <= hi)]] *)
Definition between (df : DataFrame) (lo hi : Timestamp) : DataFrame :=
  filter (fun r => (lo <=? fst r) && (fst r <=? hi)) df.

End Pandas.

Module Numpy.

Fixpoint insert (x : Z) (l : list Z) : list Z :=
  match l with
  | [] => [x]
  | y :: r => if x <=? y then x :: l else y :: insert x r
  end.

Definition sort (l : list Z) : list Z := fold_right insert [] l.

(** [np.median] of integers: NaN on no data, the middle entry of the
    sorted data, or the mean of the two middle entries. *)
Definition median (l : list Z) : float :=
  let s := sort l in
  let n := List.length s in
  match n with
  | O => NaN
  | _ =>
      let h := Nat.div n 2 in
      let lo := nth (h - 1)%nat s 0 in
      let hi := nth h s 0 in
      if Nat.even n
      then Some ((inject_Z lo + inject_Z hi) / 2)%Q
      else Some (inject_Z hi)
  end.

(** [np.arange(n)] *)
Definition arange (n : nat) : list nat := seq 0 n.

(** [int(x)]: ValueError on NaN. *)
Definition int (x : float) : outcome Z :=
  match x with
  | Some q => Returned (int_of_Q q)
  | None => Raised ValueError
  end.

End Numpy.

(** ** What the analyzer reports, logs and shows *)

(** One record of the event-impact table.  The three changes hold
  Python's [None] when unavailable; the cumulative returns are floats. *)
Record Row : Type := mkRow {
  Event : string;
  Date : string;
  Change_1M : option Q;
  Change_3M : option Q;
  Change_6M : option Q;
  Cumulative_Return_Before : float;
  Cumulative_Return_After : float
}.

(** The t-test table: event name, t-statistic, p-value. *)
Definition StatTable : Type := list (string * (float * float)).

Inductive level : Type := INFO | WARNING | ERROR.

Inductive message : Type :=
| CusumPlotGenerated
| ErrorCalculatingCusum (e : exn)
| ErrorDetectingChangePoints (e : exn)
| BayesianDetectedAt (cp_date : Timestamp)
| BayesianFailed (e : exn)
| SkippingEvent (event date_str : string)
| CouldNotProcessEvent (event : string) (e : exn).

Inductive shown : Type :=
| CusumFigure (x : list Timestamp) (cusum : list float)
| DetectedYears (change_years : list Z)
| ChangePointFigure (df : DataFrame) (marks : list (Timestamp * Q * Z))
| TraceFigure (trace : list (list Z))
| EstimatedChangePointDate (cp_date : Timestamp)
| PriceTrendsFigure (curves : list (string * Timestamp * DataFrame))
| ImpactFigure (df : list Row)
| StatFrame (df : StatTable).

(** The analyzer ([self.price_data], [self.mean_price]), the records its
  logger received and what was printed or plotted, oldest first. *)
Record World : Type := mkWorld {
  price_data : DataFrame;
  mean_price : float;
  logger : list (level * message);
  screen : list shown
}.

(** ** Methods: state and exceptions *)

Module Method.

Definition M (A : Type) : Type := World -> outcome A * World.

Definition ret {A} (a : A) : M A := fun w => (Returned a, w).

Definition bind {A B} (m : M A) (k : A -> M B) : M B :=
  fun w =>
    match m w with
    | (Returned a, w') => k a w'
    | (Raised e, w') => (Raised e, w')
    end.

(** A library call or a pandas access inside a method. *)
Definition lift {A} (o : outcome A) : M A := fun w => (o, w).

(** [try: m except <class> as e: h e]: what the body logged and showed
    before it raised stays. *)
Definition try_except {A} (class : exn -> bool) (m : M A) (h : exn -> M A)
  : M A :=
  fun w =>
    match m w with
    | (Returned a, w') => (Returned a, w')
    | (Raised e, w') => if class e then h e w' else (Raised e, w')
    end.

Definition self_price_data : M DataFrame :=
  fun w => (Returned (price_data w), w).

Definition self_mean_price : M float :=
  fun w => (Returned (mean_price w), w).

(** The world after one more log record, after one more thing shown. *)
Definition with_log (w : World) (r : level * message) : World :=
  mkWorld (price_data w) (mean_price w) (logger w ++ [r]) (screen w).

Definition with_shown (w : World) (s : shown) : World :=
  mkWorld (price_data w) (mean_price w) (logger w) (screen w ++ [s]).

(** [self.logger.info], [.warning], [.error] *)
Definition log (l : level) (m : message) : M unit :=
  fun w => (Returned tt, with_log w (l, m)).

(** [print], [plt.show()] *)
Definition show (s : shown) : M unit :=
  fun w => (Returned tt, with_shown w s).

(** [for x in xs: body], the loop's local accumulator passed along. *)
Fixpoint for_ {X S} (xs : list X) (body : X -> S -> M S) (s : S) : M S :=
  match xs with
  | [] => ret s
  | x :: r => bind (body x s) (for_ r body)
  end.

(** A list comprehension whose element expression may raise. *)
Fixpoint comprehension {X Y} (f : X -> outcome Y) (l : list X)
  : outcome (list Y) :=
  match l with
  | [] => Returned []
  | x :: r =>
      match f x with
      | Raised e => Raised e
      | Returned y =>
          match comprehension f r with
          | Raised e => Raised e
          | Returned ys => Returned (y :: ys)
          end
      end
  end.

Definition result {A} (r : outcome A * World) : outcome A := fst r.
Definition after {A} (r : outcome A * World) : World := snd r.

End Method.
Export Method.

Declare Scope method_scope.
Delimit Scope method_scope with method.
Notation "x <- m ;; k" := (bind m (fun x => k))
(at level 61, m at next level, right associativity) : method_scope.
Notation "m ;; k" := (bind m (fun _ => k))
(at level 61, right associativity) : method_scope.

(** ** The libraries the analyzer calls *)

(** The model handed to PyMC: the priors, the observed data and, for a
  change point [cp] and the two regimes' parameters, the parameter in
  force at every index. *)
Record ChangePointModel : Type := mkModel {
  change_point_lower : Z;
  change_point_upper : Z;
  mu1_prior : float * Q;
  mu2_prior : float * Q;
  sigma1_prior : Q;
  sigma2_prior : Q;
  obs_mu : Z -> Q -> Q -> list Q;
  obs_sigma : Z -> Q -> Q -> list Q;
  observed : list Q
}.

Record Libs : Type := mkLibs {
  (** [pd.to_datetime(date_str)] on a string that names a calendar day or
    is refused.  The strings pandas reads against the clock (['now'],
    ['today']) and those it answers with NaT (the empty string) are
    outside the model. *)
  to_datetime : string -> outcome Timestamp;
  (** [Timestamp.year] *)
  year : Timestamp -> Z;
  (** [rpt.Binseg(model="rbf").fit(prices).predict(n_bkps=n_bkps)] *)
  binseg_predict : list Q -> Z -> outcome (list Z);
  (** [pm.sample(draws, tune=, chains=, random_seed=)] on a model, then
    [trace.posterior['change_point'].values]: one list of draws a chain.
    The method reads nothing else of the trace; the sampler's warnings
    and statistics on convergence are not part of the answer. *)
  pm_sample : ChangePointModel -> Z -> Z -> Z -> Z -> outcome (list (list Z));
  (** [stats.ttest_ind(before, after, nan_policy='omit')] *)
  ttest_ind : list Q -> list Q -> outcome (float * float)
}.

(** ** class EventChangeAnalyzer *)

Module EventChangeAnalyzer.
Import Pandas.

Local Open Scope method_scope.

(** [__init__(price_data, logger)] *)
Definition __init__ (df : DataFrame) : World :=
  mkWorld df (mean (Price df)) [] [].

(** [calculate_cusum()].  The body has no [return]: the call yields
    Python's [None] on either path. *)
Definition calculate_cusum : M (option (list float)) :=
  try_except is_Exception
    (df <- self_price_data ;;
     mean_price <- self_mean_price ;;
     let cusum :=
       cumsum (map (fun p => flift2 Qminus (Some p) mean_price) (Price df)) in
     show (CusumFigure (index df) cusum) ;;
     log INFO CusumPlotGenerated ;;
     ret None)
    (fun e => log ERROR (ErrorCalculatingCusum e) ;; ret None).

(** [detect_change_point(n_bkps=5)].  No [return] either. *)
Definition detect_change_point (L : Libs) (n_bkps : Z) : M (option (list Z)) :=
  try_except is_Exception
    (df <- self_price_data ;;
     let prices := Price df in
     change_points <- lift (binseg_predict L prices n_bkps) ;;
     change_years <-
       lift (comprehension
               (fun cp => match iloc (index df) cp with
                          | Returned d => Returned (year L d)
                          | Raised e => Raised e
                          end)
               (all_but_last change_points)) ;;
     show (DetectedYears change_years) ;;
     marks <-
       lift (comprehension
               (fun cp => match iloc (index df) cp, iloc prices cp with
                          | Returned d, Returned p => Returned (d, p, year L d)
                          | Raised e, _ => Raised e
                          | _, Raised e => Raised e
                          end)
               (all_but_last change_points)) ;;
     show (ChangePointFigure df marks) ;;
     ret None)
    (fun e => log ERROR (ErrorDetectingChangePoints e) ;; ret None).

(** [pm.math.switch(cp >= np.arange(len(data)), first, second)] *)
Definition switch_at (n : nat) (cp : Z) (first second : Q) : list Q :=
  map (fun i => if cp >=? Z.of_nat i then first else second) (Numpy.arange n).

(** The model built under [with pm.Model()]. *)
Definition change_point_model (data : list Q) : ChangePointModel :=
  let prior_mu := mean data in
  mkModel 0 (Z.of_nat (List.length data) - 1)
          (prior_mu, 5%Q) (prior_mu, 5%Q) 5%Q 5%Q
          (switch_at (List.length data)) (switch_at (List.length data))
          data.

(** [bayesian_change_point_detection()]: the date, or [None] after the
    handler ran. *)
Definition bayesian_change_point_detection (L : Libs) : M (option Timestamp) :=
  try_except is_Exception
    (df <- self_price_data ;;
     let data := Price df in
     trace <- lift (pm_sample L (change_point_model data) 4000 2000 4 42) ;;
     show (TraceFigure trace) ;;
     cp_est <- lift (Numpy.int (Numpy.median (List.concat trace))) ;;
     cp_date <- lift (iloc (index df) cp_est) ;;
     show (EstimatedChangePointDate cp_date) ;;
     log INFO (BayesianDetectedAt cp_date) ;;
     ret (Some cp_date))
    (fun e => log ERROR (BayesianFailed e) ;; ret None).

(** [_get_prices_around_event(event_date, days_before=30, days_after=30)] *)
Definition _get_prices_around_event
  (event_date : Timestamp) (days_before days_after : Z) : M DataFrame :=
  df <- self_price_data ;;
  let before := event_date - timedelta days_before in
  let after := event_date + timedelta days_after in
  ret (between df before after).

(** [_calculate_percentage_change(event_date, days)].  For a price of
    zero at the earlier date the code's division answers inf or nan,
    which is outside the model. *)
Definition _calculate_percentage_change (event_date : Timestamp) (days : Z)
  : M (option Q) :=
  try_except is_KeyError
    (df <- self_price_data ;;
     before <- lift (loc df (event_date - timedelta days)) ;;
     after <- lift (loc df (event_date + timedelta days)) ;;
     ret (Some (((after - before) / before) * 100)%Q))
    (fun _ => ret None).

(** The body of the loop of [_plot_price_trends_around_events]. *)
Definition plot_event_curve
  (L : Libs) (days_before days_after : Z) (ev : string * string)
  (curves : list (string * Timestamp * DataFrame))
  : M (list (string * Timestamp * DataFrame)) :=
  event_date <- lift (to_datetime L (snd ev)) ;;
  prices <- _get_prices_around_event event_date days_before days_after ;;
  ret (curves ++ [(fst ev, event_date, prices)]).

(** [_plot_price_trends_around_events(key_events, 180, 180)] *)
Definition _plot_price_trends_around_events
  (L : Libs) (key_events : list (string * string)) (days_before days_after : Z)
  : M unit :=
  curves <- for_ key_events (plot_event_curve L days_before days_after) [] ;;
  show (PriceTrendsFigure curves).

(** [df.melt(id_vars=["Event", "Date"], value_vars=...)]: a frame built
    from no record has no column, and [melt] raises KeyError for the
    missing ones. *)
Definition melt (df : list Row) : outcome (list Row) :=
  match df with
  | [] => Raised KeyError
  | _ => Returned df
  end.

(** [_plot_percentage_changes_and_cumulative_returns(df)] *)
Definition _plot_percentage_changes_and_cumulative_returns (df : list Row)
  : M unit :=
  melted <- lift (melt df) ;;
  show (ImpactFigure melted).

(** The body of the loop of [_perform_statistical_analysis]. *)
Definition compare_event (L : Libs) (ev : string * string) (results : StatTable)
  : M StatTable :=
  let event := fst ev in
  let date_str := snd ev in
  try_except is_KeyError
    (event_date <- lift (to_datetime L date_str) ;;
     window <- _get_prices_around_event event_date 180 30 ;;
     let before := Price (loc_upto window event_date) in
     window <- _get_prices_around_event event_date 30 180 ;;
     let after := Price (loc_from window event_date) in
     r <- lift (ttest_ind L before after) ;;
     ret (dict_set results event r))
    (fun _ => log WARNING (SkippingEvent event date_str) ;; ret results).

(** [_perform_statistical_analysis(key_events)] *)
Definition _perform_statistical_analysis
  (L : Libs) (key_events : list (string * string)) : M StatTable :=
  results <- for_ key_events (compare_event L) [] ;;
  show (StatFrame results) ;;
  ret results.

(** [s.pct_change().add(1).cumprod().iloc[-1] - 1] *)
Definition cumulative_return (s : list Q) : outcome float :=
  match iloc (cumprod (add 1%Q (pct_change s))) (-1) with
  | Returned x => Returned (flift2 Qminus x (Some 1%Q))
  | Raised e => Raised e
  end.

(** The body of the loop of [analyze_price_changes_around_events]. *)
Definition analyze_event (L : Libs) (ev : string * string) (results : list Row)
  : M (list Row) :=
  let event := fst ev in
  let date_str := snd ev in
  try_except is_Exception
    (event_date <- lift (to_datetime L date_str) ;;
     prices <- _get_prices_around_event event_date 180 180 ;;
     pct_1m <- _calculate_percentage_change event_date 30 ;;
     pct_3m <- _calculate_percentage_change event_date 90 ;;
     pct_6m <- _calculate_percentage_change event_date 180 ;;
     cum_before <- lift (cumulative_return (Price (loc_upto prices event_date))) ;;
     cum_after <- lift (cumulative_return (Price (loc_from prices event_date))) ;;
     ret (results ++ [mkRow event date_str pct_1m pct_3m pct_6m cum_before cum_after]))
    (fun e => log WARNING (CouldNotProcessEvent event e) ;; ret results).

(** [analyze_price_changes_around_events(key_events)] *)
Definition analyze_price_changes_around_events
  (L : Libs) (key_events : list (string * string)) : M (list Row * StatTable) :=
  results <- for_ key_events (analyze_event L) [] ;;
  let event_df := results in
  _plot_price_trends_around_events L key_events 180 180 ;;
  _plot_percentage_changes_and_cumulative_returns event_df ;;
  t_test_df <- _perform_statistical_analysis L key_events ;;
  ret (event_df, t_test_df).

End EventChangeAnalyzer.

(** ** The spec's words, for comparison with the code *)

Module Spec.

(** [cusum[i] = sum over j <= i of (price[j] - mean)] *)
Definition cusum_at (prices : list Q) (m : Q) (i : nat) : Q :=
  Qsum (map (fun p => p - m)%Q (firstn (S i) prices)).

(** [(price[d+h] - price[d-h]) / price[d-h] * 100], for a price
    [before] that is not zero. *)
Definition percentage_change (before after : Q) : Q :=
  ((after - before) / before * 100)%Q.

(** No price of the series is zero. *)
Definition no_zero_price (df : DataFrame) : Prop :=
  Forall (fun r => ~ (snd r == 0)%Q) df.

(** The metric at horizon [h] around the date [d]: unavailable when
    either endpoint date is missing from the series. *)
Definition percentage_change_at (df : DataFrame) (d h : Z) : option Q :=
  match Pandas.lookup df (d - h), Pandas.lookup df (d + h) with
  | Some before, Some after => Some (percentage_change before after)
  | _, _ => None
  end.

(** A row with its five metrics present. *)
Definition fully_populated (r : Row) : Prop :=
  (exists a, Change_1M r = Some a) /\
  (exists a, Change_3M r = Some a) /\
  (exists a, Change_6M r = Some a) /\
  (exists a, Cumulative_Return_Before r = Some a) /\
  (exists a, Cumulative_Return_After r = Some a).

(** An event date before the first or after the last observation. *)
Definition outside_range (df : DataFrame) (d : Timestamp) : bool :=
  forallb (fun t => d <? t) (Pandas.index df)
  || forallb (fun t => t <? d) (Pandas.index df).

(** The date is one of the series' timestamps. *)
Definition has_date (df : DataFrame) (d : Timestamp) : bool :=
  match Pandas.lookup df d with Some _ => true | None => false end.

(** The method handed a sequence of [n] entries back to its caller. *)
Definition returns_sequence {A} (r : outcome (option (list A)) * World)
  (n : nat) : Prop :=
  exists l, result r = Returned (Some l) /\ List.length l = n.

(** The six dates the percentage changes of an event need are there. *)
Definition horizons_present (df : DataFrame) (d : Timestamp) : bool :=
  forallb (fun h => has_date df (d - h) && has_date df (d + h)) [30; 90; 180].

(** A change-point set for a series of [n] points and [k] breakpoints:
    [k+1] positive positions in increasing order, the last one [n]. *)
Definition change_point_set (n : nat) (k : Z) (bkps : list Z) : bool :=
  (Z.of_nat (List.length bkps) =? k + 1)
  && Pandas.increasing bkps
  && (last bkps 0 =? Z.of_nat n)
  && (0 <? hd 0 bkps).

(** The method raised an exception to its caller. *)
Definition raises {A} (r : outcome A * World) : Prop :=
  exists e, result r = Raised e.

(** How many draws lie below [x], and how many do not lie above it. *)
Definition count_below (draws : list Z) (x : Z) : nat :=
  List.length (filter (fun c => c <? x) draws).

Definition count_upto (draws : list Z) (x : Z) : nat :=
  List.length (filter (fun c => c <=? x) draws).

(** [x] is the draw of rank [k], counted from 0, when the draws are put
    in increasing order: one of the draws, with at most [k] draws below
    it and more than [k] draws not above it. *)
Definition of_rank (draws : list Z) (k : nat) (x : Z) : Prop :=
  In x draws /\ (count_below draws x <= k < count_upto draws x)%nat.

(** The median of the draws: the draw in the middle of an odd number of
    draws, the mean of the two in the middle of an even number. *)
Definition is_median (draws : list Z) (m : Q) : Prop :=
  exists lo hi,
    of_rank draws (Nat.div (List.length draws - 1) 2) lo /\
    of_rank draws (Nat.div (List.length draws) 2) hi /\
    (m == (inject_Z lo + inject_Z hi) / 2)%Q.



End Spec.

(** ** Stand-ins for the libraries and a small series, for concrete runs *)

Module Demo.

Definition digit (c : Ascii.ascii) : option Z :=
  let n := Ascii.nat_of_ascii c in
  if (48 <=? n)%nat && (n <=? 57)%nat then Some (Z.of_nat (n - 48)) else None.

Fixpoint digits (s : string) (acc : Z) : option Z :=
  match s with
  | EmptyString => Some acc
  | String c r =>
      match digit c with
      | Some d => digits r (10 * acc + d)
      | None => None
      end
  end.

(** Dates written as day numbers; anything else is a ValueError. *)
Definition to_datetime (s : string) : outcome Timestamp :=
  match s with
  | EmptyString => Raised ValueError
  | _ => match digits s 0 with
         | Some d => Returned d
         | None => Raised ValueError
         end
  end.

(** Years of 365 days from 1970. *)
Definition year (d : Timestamp) : Z := 1970 + d / 365.

(** Boundaries [1, ..., k, n] for [1 <= k < n], an error otherwise.  A
    stand-in for the runs below only: ruptures admits fewer counts (its
    breakpoints are multiples of 5 at least 2 apart from the ends) and
    chooses the positions from the data. *)
Definition binseg_predict (prices : list Q) (k : Z) : outcome (list Z) :=
  let n := Z.of_nat (List.length prices) in
  if (1 <=? k) && (k <? n)
  then Returned (map Z.of_nat (seq 1 (Z.to_nat k)) ++ [n])
  else Raised (LibraryError "BadSegmentationParameters").

(** Every draw of every chain at the middle index; an error on a model
    without observations. *)
Definition pm_sample (m : ChangePointModel) (draws tune chains seed : Z)
  : outcome (list (list Z)) :=
  if change_point_upper m <? change_point_lower m
  then Raised (LibraryError "SamplingError")
  else Returned (repeat (repeat (change_point_upper m / 2) (Z.to_nat draws))
                        (Z.to_nat chains)).

(** NaN statistics when a sample is empty, as SciPy answers; otherwise
    the difference of the means stands for the statistic and 1 for the
    p-value, which are not SciPy's numbers. *)
Definition ttest_ind (a b : list Q) : outcome (float * float) :=
  if ((List.length a =? 0) || (List.length b =? 0))%nat
  then Returned (NaN, NaN)
  else Returned (flift2 Qminus (Pandas.mean a) (Pandas.mean b), Some 1%Q).

Definition libs : Libs :=
  mkLibs to_datetime year binseg_predict pm_sample ttest_ind.

(** The same libraries with a sampler that keeps no draw. *)
Definition libs_without_draws : Libs :=
  mkLibs to_datetime year binseg_predict (fun _ _ _ _ _ => Returned [[]; []])
         ttest_ind.

(** The same libraries with a sampler whose four chains visit several
    indexes: in increasing order the draws are 0, 1, 2, 2, 3, 3, 4, 4, 4,
    5, 6, 6. *)
Definition libs_with_spread_draws : Libs :=
  mkLibs to_datetime year binseg_predict
         (fun _ _ _ _ _ => Returned [[1; 6; 3]; [4; 2; 5]; [3; 4; 0]; [6; 4; 2]])
         ttest_ind.


Definition series : DataFrame :=
  [(20, 50%Q); (110, 52%Q); (170, 55%Q); (200, 60%Q);
   (230, 66%Q); (290, 63%Q); (380, 70%Q)].

Definition world : World := EventChangeAnalyzer.__init__ series.

Definition events : list (string * string) :=
  [("A", "200"); ("B", "2000")]%string.

End Demo.

(** ** class DataPreprocessor (scripts/data_preprocessor.py) *)

Module Posix.

(** [s.split(sep)] for a separator of one character: always a piece at
    least. *)
Fixpoint split_on (sep : Ascii.ascii) (s : string) : list string :=
  match s with
  | EmptyString => [EmptyString]
  | String c r =>
      if Ascii.eqb c sep then EmptyString :: split_on sep r
      else match split_on sep r with
           | piece :: pieces => String c piece :: pieces
           | [] => [String c EmptyString]
           end
  end.

(** [s.startswith("/")] and [s.endswith("/")] *)
Definition starts_with_slash (s : string) : bool :=
  match s with
  | String c _ => Ascii.eqb c "/"%char
  | EmptyString => false
  end.

Fixpoint ends_with_slash (s : string) : bool :=
  match s with
  | EmptyString => false
  | String c EmptyString => Ascii.eqb c "/"%char
  | String _ r => ends_with_slash r
  end.

(** [os.path.join(a, b)] *)
Definition join (a b : string) : string :=
  if starts_with_slash b then b
  else if (match a with EmptyString => true | _ => false end)
          || ends_with_slash a
       then (a ++ b)%string
       else (a ++ "/" ++ b)%string.

(** The characters of a string, and back. *)
Fixpoint chars (s : string) : list Ascii.ascii :=
  match s with
  | EmptyString => []
  | String c r => c :: chars r
  end.

Fixpoint of_chars (l : list Ascii.ascii) : string :=
  match l with
  | [] => EmptyString
  | c :: r => String c (of_chars r)
  end.

Fixpoint drop_while (f : Ascii.ascii -> bool) (l : list Ascii.ascii)
  : list Ascii.ascii :=
  match l with
  | c :: r => if f c then drop_while f r else l
  | [] => []
  end.

Definition is_slash (c : Ascii.ascii) : bool := Ascii.eqb c "/"%char.

(** [os.path.dirname(p)]: the path up to and with its last slash, the
    trailing slashes then stripped unless the head is slashes only. *)
Definition dirname (p : string) : string :=
  let head := drop_while (fun c => negb (is_slash c)) (rev (chars p)) in
  if forallb is_slash head then of_chars (rev head)
  else of_chars (rev (drop_while is_slash head)).

End Posix.

Module DataPreprocessor.

(** A row of the file as read, and of the frame after the dates were
    parsed with [errors='coerce'] ([None] is NaT) and made the index. *)
Definition CsvFrame : Type := list (string * float).
Definition LoadedFrame : Type := list (option Timestamp * float).

(** The frame [pd.read_csv] hands over: the rows of a file with a
    ['Date'] column, or the prices of a file without one. *)
Inductive RawFrame : Type :=
| WithDate (rows : CsvFrame)
| WithoutDate (prices : list float).

(** What [self.data] holds: the frame as read, or that frame after its
    dates were parsed and made the index in place. *)
Inductive Stored : Type :=
| AsRead (raw : RawFrame)
| Indexed (df : LoadedFrame).

Inductive message : Type :=
| EnsuredDirectoryExists (output_dir : string)
| InvalidLinkFormat
| InitiatingDownload
| DownloadedFileTo (output_file : string)
| LoadedAndIndexed
| FailedToLoadData (e : exn).

(** What the preprocessor asked of the file system and the network. *)
Inductive effect : Type :=
| MakeDirs (path : string)
| Download (url output : string)
| ReadCsv (path : string).

(** [os.makedirs(path, exist_ok=True)], [gdown.download(url, output)],
    [pd.read_csv(path)] and [pd.to_datetime(., errors='coerce')] on one
    entry. *)
Record Io : Type := mkIo {
  makedirs : string -> outcome unit;
  gdown_download : string -> string -> outcome unit;
  read_csv : string -> outcome RawFrame;
  to_datetime_coerce : string -> option Timestamp
}.

Record Self : Type := mkSelf {
  drive_link : string;
  output_dir : string;
  output_file : string;
  data : option Stored;
  logger : list (level * message);
  effects : list effect
}.

Definition logged (self : Self) (l : level) (m : message) : Self :=
  mkSelf (drive_link self) (output_dir self) (output_file self) (data self)
         (logger self ++ [(l, m)]) (effects self).

Definition did (self : Self) (e : effect) : Self :=
  mkSelf (drive_link self) (output_dir self) (output_file self) (data self)
         (logger self) (effects self ++ [e]).

Definition set_data (self : Self) (frame : Stored) : Self :=
  mkSelf (drive_link self) (output_dir self) (output_file self) (Some frame)
         (logger self) (effects self).

(** [__init__(drive_link, output_dir="../data/", output_filename="data.csv")] *)
Definition __init__ (drive_link output_dir output_filename : string) : Self :=
  mkSelf drive_link output_dir (Posix.join output_dir output_filename)
         None [] [].

Definition download_prefix : string :=
  "https://drive.google.com/uc?export=download&id=".

(** [_generate_download_url()]: the sixth piece of the link between
    slashes; the IndexError of a shorter link is logged and turned into
    ValueError. *)
Definition _generate_download_url (self : Self) : outcome string * Self :=
  match nth_error (Posix.split_on "/"%char (drive_link self)) 5 with
  | Some file_id => (Returned (download_prefix ++ file_id)%string, self)
  | None => (Raised ValueError, logged self ERROR InvalidLinkFormat)
  end.

(** The handler of [load_data]: log and raise again. *)
Definition failed {A} (self : Self) (e : exn) : outcome A * Self :=
  (Raised e, logged self ERROR (FailedToLoadData e)).

(** [load_data()].  The frame is assigned to [self.data] as soon as it
    is read; the ['Date'] column is looked up after that, which raises
    KeyError on a file without one; the dates are then parsed and made
    the index of the same frame, which is returned. *)
Definition load_data (io : Io) (self : Self) : outcome LoadedFrame * Self :=
  let self := did self (MakeDirs (output_dir self)) in
  match makedirs io (output_dir self) with
  | Raised e => failed self e
  | Returned _ =>
      let self := logged self INFO (EnsuredDirectoryExists (output_dir self)) in
      match _generate_download_url self with
      | (Raised e, self) => failed self e
      | (Returned url, self) =>
          let self := logged self INFO InitiatingDownload in
          let self := did self (Download url (output_file self)) in
          match gdown_download io url (output_file self) with
          | Raised e => failed self e
          | Returned _ =>
              let self := logged self INFO (DownloadedFileTo (output_file self)) in
              let self := did self (ReadCsv (output_file self)) in
              match read_csv io (output_file self) with
              | Raised e => failed self e
              | Returned raw =>
                  let self := set_data self (AsRead raw) in
                  match raw with
                  | WithoutDate _ => failed self KeyError
                  | WithDate csv =>
                      let df :=
                        map (fun row =>
                               (to_datetime_coerce io (fst row), snd row))
                            csv in
                      let self := set_data self (Indexed df) in
                      let self := logged self INFO LoadedAndIndexed in
                      (Returned df, self)
                  end
              end
          end
      end
  end.

End DataPreprocessor.

(** ** class SetupLogger (scripts/logger.py) *)

Module SetupLogger.

(** The logger [logging.getLogger(__name__)] of the module, shared by
    every instance: its level, its handlers (file and level) and its
    [propagate] flag. *)
Record Logger : Type := mkLogger {
  level_ : option Z;
  handlers : list (string * Z);
  propagate : bool
}.

(** [os.makedirs(path, exist_ok=True)] and the opening of the log file by
    [logging.FileHandler(log_file)]. *)
Record Os : Type := mkOs {
  makedirs : string -> outcome unit;
  open_log : string -> outcome unit
}.

(** [__init__(log_file='logs/app.log', log_level=logging.INFO)] *)
Definition __init__ (os : Os) (log_file : string) (log_level : Z)
  (logger : Logger) : outcome unit * Logger :=
  match makedirs os (Posix.dirname log_file) with
  | Raised e => (Raised e, logger)
  | Returned _ =>
      let logger := mkLogger (Some log_level) (handlers logger)
                             (propagate logger) in
      match handlers logger with
      | [] =>
          match open_log os log_file with
          | Raised e => (Raised e, logger)
          | Returned _ =>
              (Returned tt,
               mkLogger (level_ logger) [(log_file, log_level)] false)
          end
      | _ => (Returned tt, logger)
      end
  end.

(** One construction after the other, until one raises. *)
Fixpoint construct_all (os : Os) (calls : list (string * Z)) (logger : Logger)
  : outcome unit * Logger :=
  match calls with
  | [] => (Returned tt, logger)
  | (log_file, log_level) :: rest =>
      match __init__ os log_file log_level logger with
      | (Returned _, logger) => construct_all os rest logger
      | (Raised e, logger) => (Raised e, logger)
      end
  end.

End SetupLogger.

(** ** class DataVisualizer (scripts/data_visualizer.py) *)

Module DataVisualizer.

(** [self.data]: the dates and prices, and the column
    ['Rolling_Volatility'] once it was stored. *)
Record Frame : Type := mkFrame {
  rows : DataFrame;
  Rolling_Volatility : option (list float)
}.

Inductive message : Type :=
| Initialized
| BoxPlotDisplayed
| TimeSeriesPlotDisplayed
| DistributionPlotDisplayed
| YearlyAveragePlotDisplayed
| RollingVolatilityPlotDisplayed (window : Z)
| MethodError (method_name : string) (e : exn).

Inductive figure : Type :=
| BoxPlot (prices : list Q)
| PriceOverTime (dates : list Timestamp) (prices : list Q)
| PriceDistribution (prices : list Q) (bins : Z)
| YearlyAverage (yearly_avg : list (Z * float))
| RollingVolatility (window : Z) (dates : list Timestamp)
    (volatility : list float).

Inductive shown : Type :=
| Figure (f : figure)
| Html (html : string).

(** The rendering of a figure by matplotlib and seaborn up to
    [plt.show()], [Series.rolling(window).std()] and [Series.dt.year]. *)
Record Graphics : Type := mkGraphics {
  draw : figure -> outcome unit;
  rolling_std : Z -> list Q -> outcome (list float);
  year : Timestamp -> Z
}.

Record Self : Type := mkSelf {
  data : Frame;
  logger : list (level * message);
  screen : list shown
}.

Definition logged (self : Self) (l : level) (m : message) : Self :=
  mkSelf (data self) (logger self ++ [(l, m)]) (screen self).

Definition showing (self : Self) (s : shown) : Self :=
  mkSelf (data self) (logger self) (screen self ++ [s]).

(** [__init__(data, logger)] *)
Definition __init__ (data : Frame) : Self :=
  logged (mkSelf data [] []) INFO Initialized.

(** The double quote, as a string. *)
Definition dq : string := String "034"%char EmptyString.

Definition log_link : string :=
  ("<a href=" ++ dq ++ "../logs/notebooks.log" ++ dq ++ " target=" ++ dq
   ++ "_blank" ++ dq ++ ">Check the log file for details</a>")%string.

(** [_display_error_message(method_name)] *)
Definition _display_error_message (method_name : string) (self : Self) : Self :=
  showing self
    (Html ("<p style='color:red;'>An error occurred in <strong>"
           ++ method_name ++ "</strong>. " ++ log_link ++ "</p>")%string).

(** The shape the plot methods share: draw, show and log, or log the
    error and display the message. *)
Definition plot (g : Graphics) (method_name : string) (f : figure)
  (done : message) (self : Self) : outcome unit * Self :=
  match draw g f with
  | Returned _ => (Returned tt, logged (showing self (Figure f)) INFO done)
  | Raised e =>
      (Returned tt,
       _display_error_message method_name
         (logged self ERROR (MethodError method_name e)))
  end.

(** [plot_box()] *)
Definition plot_box (g : Graphics) (self : Self) : outcome unit * Self :=
  plot g "plot_box" (BoxPlot (Pandas.Price (rows (data self))))
       BoxPlotDisplayed self.

(** [plot_price_over_time()] *)
Definition plot_price_over_time (g : Graphics) (self : Self)
  : outcome unit * Self :=
  plot g "plot_price_over_time"
       (PriceOverTime (Pandas.index (rows (data self)))
                      (Pandas.Price (rows (data self))))
       TimeSeriesPlotDisplayed self.

(** [plot_price_distribution()] *)
Definition plot_price_distribution (g : Graphics) (self : Self)
  : outcome unit * Self :=
  plot g "plot_price_distribution"
       (PriceDistribution (Pandas.Price (rows (data self))) 30)
       DistributionPlotDisplayed self.

(** The keys of [groupby]: the distinct values in increasing order. *)
Fixpoint dedup (l : list Z) : list Z :=
  match l with
  | a :: ((b :: _) as r) => if a =? b then dedup r else a :: dedup r
  | _ => l
  end.

Definition group_keys (keys : list Z) : list Z := dedup (Numpy.sort keys).

(** [df.groupby('Year')['Price'].mean().reset_index()] with
    [df['Year'] = df['Date'].dt.year]. *)
Definition yearly_average (g : Graphics) (df : DataFrame) : list (Z * float) :=
  map (fun y =>
         (y, Pandas.mean
               (Pandas.Price (filter (fun r => year g (fst r) =? y) df))))
      (group_keys (map (fun r => year g (fst r)) df)).

(** [plot_yearly_average()] *)
Definition plot_yearly_average (g : Graphics) (self : Self)
  : outcome unit * Self :=
  plot g "plot_yearly_average"
       (YearlyAverage (yearly_average g (rows (data self))))
       YearlyAveragePlotDisplayed self.

(** [plot_rolling_volatility(window=30)]: the column is stored in
    [self.data] before anything is drawn. *)
Definition plot_rolling_volatility (g : Graphics) (window : Z) (self : Self)
  : outcome unit * Self :=
  match rolling_std g window (Pandas.Price (rows (data self))) with
  | Raised e =>
      (Returned tt,
       _display_error_message "plot_rolling_volatility"
         (logged self ERROR (MethodError "plot_rolling_volatility" e)))
  | Returned volatility =>
      let self :=
        mkSelf (mkFrame (rows (data self)) (Some volatility))
               (logger self) (screen self) in
      plot g "plot_rolling_volatility"
           (RollingVolatility window (Pandas.index (rows (data self)))
                              volatility)
           (RollingVolatilityPlotDisplayed window) self
  end.

End DataVisualizer.

(** ** Stand-ins for the preprocessor's libraries *)

Module DemoIo.

(** Libraries that succeed, on a file of two rows. *)
Definition io : DataPreprocessor.Io :=
  DataPreprocessor.mkIo
    (fun _ => Returned tt) (fun _ _ => Returned tt)
    (fun _ => Returned (DataPreprocessor.WithDate
                          [("May 20, 1987"%string, Some 18.63%Q);
                           ("not a date"%string, Some 18.45%Q)]))
    (fun s => if String.eqb s "May 20, 1987" then Some 6348 else None).

(** The same libraries on a file of two prices without a ['Date']
    column. *)
Definition io_without_dates : DataPreprocessor.Io :=
  DataPreprocessor.mkIo
    (fun _ => Returned tt) (fun _ _ => Returned tt)
    (fun _ => Returned (DataPreprocessor.WithoutDate
                          [Some 18.63%Q; Some 18.45%Q]))
    (fun _ => None).

(** A renderer that fails on the volatility figure, a rolling deviation
    that is NaN throughout on a series shorter than the window (as
    pandas answers) and is not computed otherwise, and the years of
    [Demo.year]. *)
Definition graphics : DataVisualizer.Graphics :=
  DataVisualizer.mkGraphics
    (fun f => match f with
              | DataVisualizer.RollingVolatility _ _ _ =>
                  Raised (LibraryError "RenderingError")
              | _ => Returned tt
              end)
    (fun window prices =>
       if Z.of_nat (List.length prices) <? window
       then Returned (repeat NaN (List.length prices))
       else Raised (LibraryError "NotComputed"))
    Demo.year.

Definition visualizer : DataVisualizer.Self :=
  DataVisualizer.__init__ (DataVisualizer.mkFrame Demo.series None).

End DemoIo.

(** ** Notions for the further properties *)

Module Derived.

(** The event's date parses and the series has an observation within the
    180 days up to it and one within the 180 days from it. *)
Definition processable (L : Libs) (df : DataFrame) (ev : string * string) : bool :=
  match to_datetime L (snd ev) with
  | Returned d =>
      negb (Nat.eqb (List.length (Pandas.between df (d - 180) d)) 0)
      && negb (Nat.eqb (List.length (Pandas.between df d (d + 180))) 0)
  | Raised _ => false
  end.

(** The event a warning of the event loop is about. *)
Definition warned_event (r : level * message) : option string :=
  match r with
  | (WARNING, CouldNotProcessEvent event _) => Some event
  | _ => None
  end.

(** What the comparison of one event comes to: the date parsed, then the
    test on the prices of the 180 days before and of the 180 days after. *)
Definition comparison (L : Libs) (df : DataFrame) (ev : string * string)
  : outcome (float * float) :=
  match to_datetime L (snd ev) with
  | Raised e => Raised e
  | Returned d =>
      ttest_ind L (Pandas.Price (Pandas.between df (d - 180) d))
                  (Pandas.Price (Pandas.between df d (d + 180)))
  end.

(** The entries of the t-test table, one for each event whose comparison
    returned, and the warnings for the others, in the mapping's order. *)
Definition entries (L : Libs) (df : DataFrame) (evs : list (string * string))
  : StatTable :=
  flat_map (fun ev => match comparison L df ev with
                      | Returned r => [(fst ev, r)]
                      | Raised _ => []
                      end) evs.

Definition skips (L : Libs) (df : DataFrame) (evs : list (string * string))
  : list (level * message) :=
  flat_map (fun ev => match comparison L df ev with
                      | Returned _ => []
                      | Raised _ => [(WARNING, SkippingEvent (fst ev) (snd ev))]
                      end) evs.

(** How often a character occurs in a string. *)
Fixpoint count_char (c : Ascii.ascii) (s : string) : nat :=
  match s with
  | EmptyString => 0
  | String a r => ((if Ascii.eqb a c then 1 else 0) + count_char c r)%nat
  end.

(** A position [s.iloc] accepts on a series of [n] entries. *)
Definition in_bounds (n : nat) (i : Z) : Prop :=
  - Z.of_nat n <= i < Z.of_nat n.

(** The world with further log records. *)
Definition with_logs (w : World) (rs : list (level * message)) : World :=
  mkWorld (price_data w) (mean_price w) (logger w ++ rs) (screen w).

(** The day-to-day returns [p[i] / p[i-1] - 1] of a window after its
    first price [prev]. *)
Fixpoint simple_returns (prev : Q) (r : list Q) : list Q :=
  match r with
  | [] => []
  | x :: r' => (x / prev - 1)%Q :: simple_returns x r'
  end.

End Derived.

(** * Properties *)

(** ** Methods that only read the analyzer *)

Section Frame.

(** Two worlds with the same analyzer fields. *)
Definition same_self (w w' : World) : Prop :=
  price_data w = price_data w' /\ mean_price w = mean_price w'.

(** A method whose outcome is a function of the analyzer's fields and
    which leaves them as they were. *)
Definition reads_only_self {A} (m : M A) : Prop :=
  forall w w', same_self w w' ->
    result (m w) = result (m w') /\ same_self w (after (m w)).

Lemma same_self_refl w : same_self w w.
Proof. split; reflexivity. Qed.

Lemma same_self_sym w w' : same_self w w' -> same_self w' w.
Proof. intros [H1 H2]. split; symmetry; assumption. Qed.

Lemma same_self_trans w1 w2 w3 :
  same_self w1 w2 -> same_self w2 w3 -> same_self w1 w3.
Proof. intros [H1 H2] [H3 H4]. split; congruence. Qed.

Lemma frame_ret {A} (a : A) : reads_only_self (ret a).
Proof. intros w w' H. split; [reflexivity | apply same_self_refl]. Qed.

Lemma frame_lift {A} (o : outcome A) : reads_only_self (lift o).
Proof. intros w w' H. split; [reflexivity | apply same_self_refl]. Qed.

Lemma frame_log l m : reads_only_self (log l m).
Proof. intros w w' H. split; [reflexivity | split; reflexivity]. Qed.

Lemma frame_show s : reads_only_self (show s).
Proof. intros w w' H. split; [reflexivity | split; reflexivity]. Qed.

Lemma frame_self_price_data : reads_only_self self_price_data.
Proof.
  intros w w' [H _]. split; [ | apply same_self_refl].
  unfold self_price_data, result. simpl. now rewrite H.
Qed.

Lemma frame_self_mean_price : reads_only_self self_mean_price.
Proof.
  intros w w' [_ H]. split; [ | apply same_self_refl].
  unfold self_mean_price, result. simpl. now rewrite H.
Qed.

Lemma frame_bind {A B} (m : M A) (k : A -> M B) :
  reads_only_self m -> (forall a, reads_only_self (k a)) ->
  reads_only_self (bind m k).
Proof.
  intros Hm Hk w w' H.
  destruct (Hm w w' H) as [Hr Hs].
  destruct (Hm w' w (same_self_sym _ _ H)) as [_ Hs'].
  unfold bind, result, after in *.
  destruct (m w) as [[a | e] w1], (m w') as [[a' | e'] w1'];
    simpl in *; try discriminate.
  - injection Hr as <-.
    assert (H1 : same_self w1 w1').
    { eapply same_self_trans; [apply same_self_sym; exact Hs | ].
      eapply same_self_trans; [exact H | exact Hs']. }
    destruct (Hk a w1 w1' H1) as [Hr1 Hs1]. split; [exact Hr1 | ].
    eapply same_self_trans; [exact Hs | exact Hs1].
  - injection Hr as <-. split; [reflexivity | exact Hs].
Qed.

Lemma frame_try {A} class (m : M A) (h : exn -> M A) :
  reads_only_self m -> (forall e, reads_only_self (h e)) ->
  reads_only_self (try_except class m h).
Proof.
  intros Hm Hh w w' H.
  destruct (Hm w w' H) as [Hr Hs].
  destruct (Hm w' w (same_self_sym _ _ H)) as [_ Hs'].
  unfold try_except, result, after in *.
  destruct (m w) as [[a | e] w1], (m w') as [[a' | e'] w1'];
    simpl in *; try discriminate.
  - split; assumption.
  - injection Hr as <-.
    destruct (class e); [ | split; [reflexivity | exact Hs]].
    assert (H1 : same_self w1 w1').
    { eapply same_self_trans; [apply same_self_sym; exact Hs | ].
      eapply same_self_trans; [exact H | exact Hs']. }
    destruct (Hh e w1 w1' H1) as [Hr1 Hs1]. split; [exact Hr1 | ].
    eapply same_self_trans; [exact Hs | exact Hs1].
Qed.

Lemma frame_for {X S} (body : X -> S -> M S) (xs : list X) :
  (forall x s, reads_only_self (body x s)) ->
  forall s, reads_only_self (for_ xs body s).
Proof.
  intros Hb. induction xs as [ | x r IH]; intros s; simpl.
  - apply frame_ret.
  - apply frame_bind; [apply Hb | exact IH].
Qed.

End Frame.

Create HintDb frame.
#[export] Hint Resolve frame_ret frame_lift frame_log frame_show
frame_self_price_data frame_self_mean_price : frame.

Ltac frame :=
repeat first
  [ apply frame_bind; [ | intro ]
  | apply frame_try; [ | intro ]
  | apply frame_for; intros ? ?
  | solve [auto with frame] ].

Section AnalyzerFrame.
Import EventChangeAnalyzer.
Variable L : Libs.

Lemma frame_calculate_cusum : reads_only_self calculate_cusum.
Proof. unfold calculate_cusum. frame. Qed.

Lemma frame_detect_change_point k :
  reads_only_self (detect_change_point L k).
Proof. unfold detect_change_point. frame. Qed.

Lemma frame_bayesian : reads_only_self (bayesian_change_point_detection L).
Proof. unfold bayesian_change_point_detection. frame. Qed.

Lemma frame_get_prices d b a :
  reads_only_self (_get_prices_around_event d b a).
Proof. unfold _get_prices_around_event. frame. Qed.

Lemma frame_percentage_change d h :
  reads_only_self (_calculate_percentage_change d h).
Proof. unfold _calculate_percentage_change. frame. Qed.

Lemma frame_plot_trends evs b a :
  reads_only_self (_plot_price_trends_around_events L evs b a).
Proof.
  unfold _plot_price_trends_around_events. frame.
Qed.

Lemma frame_plot_changes df :
  reads_only_self (_plot_percentage_changes_and_cumulative_returns df).
Proof. unfold _plot_percentage_changes_and_cumulative_returns. frame. Qed.

Lemma frame_statistical_analysis evs :
  reads_only_self (_perform_statistical_analysis L evs).
Proof.
  unfold _perform_statistical_analysis. frame.
Qed.

Lemma frame_analyze_event ev results :
  reads_only_self (analyze_event L ev results).
Proof.
  unfold analyze_event. frame.
Qed.

Lemma frame_analyze evs :
  reads_only_self (analyze_price_changes_around_events L evs).
Proof.
  unfold analyze_price_changes_around_events. frame.
Qed.

End AnalyzerFrame.

(** ** The stored series is never written *)

Section Results.
Import Pandas EventChangeAnalyzer.

Lemma frame_price_data {A} (m : M A) (w : World) :
  reads_only_self m -> price_data (after (m w)) = price_data w.
Proof.
  intros H. destruct (H w w (same_self_refl w)) as [_ [Hp _]].
  symmetry. exact Hp.
Qed.

(** C10: none of the core operations (CUSUM, segmentation, Bayesian
    change-point detection, event-impact analysis, event-window
    extraction) mutates the stored price series: after the call,
    [price_data] is the list of (timestamp, price) entries it was. *)
Theorem price_data_never_mutated
  (L : Libs) (w : World) (n_bkps : Z) (key_events : list (string * string))
  (event_date : Timestamp) (days_before days_after : Z) :
  price_data (after (calculate_cusum w)) = price_data w /\
  price_data (after (detect_change_point L n_bkps w)) = price_data w /\
  price_data (after (bayesian_change_point_detection L w)) = price_data w /\
  price_data (after (analyze_price_changes_around_events L key_events w))
    = price_data w /\
  price_data (after (_get_prices_around_event
                       event_date days_before days_after w))
    = price_data w.
Proof.
  split; [ | split; [ | split; [ | split]]].
  - exact (frame_price_data _ w frame_calculate_cusum).
  - exact (frame_price_data _ w (frame_detect_change_point L n_bkps)).
  - exact (frame_price_data _ w (frame_bayesian L)).
  - exact (frame_price_data _ w (frame_analyze L key_events)).
  - exact (frame_price_data _ w
             (frame_get_prices event_date days_before days_after)).
Qed.

End Results.

(** ** The cumulative sum of deviations *)

Section Cusum.
Import Pandas EventChangeAnalyzer.

Lemma accumulate_from_length op acc l :
  List.length (accumulate_from op acc l) = List.length l.
Proof.
  revert acc. induction l as [ | x r IH]; intros acc; simpl; [reflexivity | ].
  now rewrite IH.
Qed.

Lemma accumulate_length op l : List.length (accumulate op l) = List.length l.
Proof.
  destruct l as [ | x r]; simpl; [reflexivity | ].
  now rewrite accumulate_from_length.
Qed.

Lemma restore_some (l : list Q) :
  forall l', List.length l' = List.length l ->
    map (fun p : float * Q =>
           match fst p with Some _ => Some (snd p) | None => NaN end)
        (combine (map Some l) l')
    = map Some l'.
Proof.
  induction l as [ | x r IH]; intros [ | y l'] H; simpl in *;
    try discriminate; [reflexivity | ].
  rewrite IH; [reflexivity | lia].
Qed.

Lemma na_accum_some op u l :
  na_accum op u (map Some l) = map Some (accumulate op l).
Proof.
  unfold na_accum. rewrite map_map. simpl. rewrite map_id.
  apply restore_some, accumulate_length.
Qed.

Lemma accumulate_from_nth l : forall acc i c,
  nth_error (accumulate_from Qplus acc l) i = Some c ->
  (c == acc + Qsum (firstn (S i) l))%Q.
Proof.
  induction l as [ | y r IH]; intros acc i c H.
  - destruct i; discriminate.
  - destruct i as [ | j]; simpl in H.
    + injection H as <-. simpl. ring.
    + apply IH in H. rewrite H.
      change (firstn (S (S j)) (y :: r)) with (y :: firstn (S j) r).
      simpl. ring.
Qed.

Lemma accumulate_nth l i c :
  nth_error (accumulate Qplus l) i = Some c ->
  (c == Qsum (firstn (S i) l))%Q.
Proof.
  destruct l as [ | x r]; [destruct i; discriminate | ].
  destruct i as [ | j]; simpl; intros H.
  - injection H as <-. ring.
  - apply accumulate_from_nth in H. rewrite H.
    destruct r; simpl; ring.
Qed.

(** C4 (as the code has it): for a series with its stored mean, the CUSUM
    operation computes a sequence as long as the series whose entry [i] is
    the sum over [j <= i] of [price[j] - mean] (the empty sequence on an
    empty series), plots it against the dates and logs that it did; it
    hands Python's [None], not the sequence, back to its caller. *)
Theorem calculate_cusum_plots_the_sequence
  (df : DataFrame) (lg : list (level * message)) (sc : list shown) :
  let w := mkWorld df (mean (Price df)) lg sc in
  exists cusum : list float,
    calculate_cusum w
    = (Returned None,
       with_log (with_shown w (CusumFigure (index df) cusum))
                (INFO, CusumPlotGenerated)) /\
    List.length cusum = List.length df /\
    (df = [] -> cusum = []) /\
    (forall i, (i < List.length df)%nat ->
       exists m c,
         mean (Price df) = Some m /\
         nth_error cusum i = Some (Some c) /\
         (c == Spec.cusum_at (Price df) m i)%Q).
Proof.
  intros w.
  exists (cumsum (map (fun p => flift2 Qminus (Some p) (mean (Price df)))
                      (Price df))).
  split; [reflexivity | ].
  destruct df as [ | [t p] r] eqn:E.
  - simpl. repeat split; try reflexivity. intros i Hi. simpl in Hi. lia.
  - rewrite <- E in *. clear w.
    assert (Hm : exists m, mean (Price df) = Some m).
    { rewrite E. simpl. eexists. reflexivity. }
    destruct Hm as [m Hm]. rewrite Hm.
    assert (Hd : map (fun p => flift2 Qminus (Some p) (Some m)) (Price df)
                 = map Some (map (fun p => p - m)%Q (Price df))).
    { rewrite map_map. reflexivity. }
    rewrite Hd. unfold cumsum. rewrite na_accum_some.
    split; [ | split].
    + rewrite length_map, accumulate_length, length_map.
      unfold Price. now rewrite length_map.
    + intros H. rewrite E in H. discriminate.
    + intros i Hi.
      destruct (nth_error (accumulate Qplus (map (fun p => p - m)%Q (Price df))) i)
        as [c | ] eqn:Hc.
      * exists m, c. split; [reflexivity | ]. split.
        -- rewrite nth_error_map, Hc. reflexivity.
        -- apply accumulate_nth in Hc. unfold Spec.cusum_at.
           rewrite Hc, firstn_map. reflexivity.
      * apply nth_error_None in Hc.
        rewrite accumulate_length, length_map in Hc.
        unfold Price in Hc. rewrite length_map in Hc. lia.
Qed.

(** C4, the claim as stated fails: on the seven-point series the call
    returns [None], so no sequence of seven reals reaches the caller. *)
Lemma calculate_cusum_returns_no_sequence :
  ~ Spec.returns_sequence (calculate_cusum Demo.world)
      (List.length Demo.series).
Proof.
  intros [l [H _]]. vm_compute in H. discriminate.
Qed.

End Cusum.

(** ** Running a method step by step *)

Section Steps.

Lemma bind_returned {A B} (m : M A) (k : A -> M B) w a w' :
  m w = (Returned a, w') -> bind m k w = k a w'.
Proof. intros H. unfold bind. now rewrite H. Qed.

Lemma bind_raised {A B} (m : M A) (k : A -> M B) w e w' :
  m w = (Raised e, w') -> bind m k w = (Raised e, w').
Proof. intros H. unfold bind. now rewrite H. Qed.

Lemma try_returned {A} class (m : M A) h w a w' :
  m w = (Returned a, w') -> try_except class m h w = (Returned a, w').
Proof. intros H. unfold try_except. now rewrite H. Qed.

Lemma try_caught {A} class (m : M A) h w e w' :
  m w = (Raised e, w') -> class e = true -> try_except class m h w = h e w'.
Proof. intros H Hc. unfold try_except. now rewrite H, Hc. Qed.

Lemma try_passed {A} class (m : M A) h w e w' :
  m w = (Raised e, w') -> class e = false ->
  try_except class m h w = (Raised e, w').
Proof. intros H Hc. unfold try_except. now rewrite H, Hc. Qed.

End Steps.

(** ** Exact-date lookups and the percentage change *)

Section PercentageChange.
Import Pandas EventChangeAnalyzer.

Lemma increasing_tail a l : increasing (a :: l) = true -> increasing l = true.
Proof.
  destruct l as [ | b r]; [reflexivity | ].
  simpl. intros H. apply andb_true_iff in H. tauto.
Qed.

Lemma increasing_head_lt l : forall a,
  increasing (a :: l) = true -> forall t, In t l -> a < t.
Proof.
  induction l as [ | b r IH]; intros a H t Ht; [destruct Ht | ].
  simpl in H. apply andb_true_iff in H. destruct H as [Hab Hr].
  apply Z.ltb_lt in Hab. destruct Ht as [<- | Ht]; [exact Hab | ].
  specialize (IH b Hr t Ht). lia.
Qed.



Lemma lookup_some_in df d p : lookup df d = Some p -> In (d, p) df.
Proof.
  induction df as [ | [t q] r IH]; intros H; [discriminate | ].
  simpl in H. destruct (Z.eqb_spec t d) as [-> | _].
  - injection H as ->. now left.
  - right. now apply IH.
Qed.

(** The method computes the spec's metric and leaves the world alone. *)
Lemma percentage_change_run w d h :
  _calculate_percentage_change d h w
  = (Returned (Spec.percentage_change_at (price_data w) d h), w).
Proof.
  unfold _calculate_percentage_change, Spec.percentage_change_at,
    try_except, bind, self_price_data, lift, loc, timedelta, ret.
  destruct (lookup (price_data w) (d - h)) as [b | ]; simpl; [ | reflexivity].
  destruct (lookup (price_data w) (d + h)) as [a | ]; reflexivity.
Qed.

(** What one turn of the event loop does, once the date is parsed. *)
Lemma analyze_event_run L event date_str results w d :
  to_datetime L date_str = Returned d ->
  analyze_event L (event, date_str) results w
  = let df := price_data w in
    let prices := between df (d - 180) (d + 180) in
    match cumulative_return (Price (loc_upto prices d)) with
    | Raised e =>
        (Returned results, with_log w (WARNING, CouldNotProcessEvent event e))
    | Returned cum_before =>
        match cumulative_return (Price (loc_from prices d)) with
        | Raised e =>
            (Returned results,
             with_log w (WARNING, CouldNotProcessEvent event e))
        | Returned cum_after =>
            (Returned
               (results ++
                  [mkRow event date_str
                     (Spec.percentage_change_at df d 30)
                     (Spec.percentage_change_at df d 90)
                     (Spec.percentage_change_at df d 180)
                     cum_before cum_after]),
             w)
        end
    end.
Proof.
  intros Hd. unfold analyze_event. simpl fst. simpl snd.
  unfold try_except, bind at 1. unfold lift at 1. rewrite Hd.
  unfold bind at 1. unfold _get_prices_around_event at 1.
  unfold bind at 1, self_price_data, ret at 1. unfold timedelta.
  unfold bind at 1. rewrite percentage_change_run.
  unfold bind at 1. rewrite percentage_change_run.
  unfold bind at 1. rewrite percentage_change_run.
  unfold bind, lift, ret. simpl.
  destruct (cumulative_return
              (Price (loc_upto (between (price_data w) (d - 180) (d + 180)) d)))
    as [cb | e]; [ | reflexivity].
  destruct (cumulative_return
              (Price (loc_from (between (price_data w) (d - 180) (d + 180)) d)))
    as [ca | e]; reflexivity.
Qed.



End PercentageChange.

(** ** The Bayesian change point *)

Section Bayesian.
Import Pandas EventChangeAnalyzer.

Lemma insert_length x l : List.length (Numpy.insert x l) = S (List.length l).
Proof.
  induction l as [ | y r IH]; simpl; [reflexivity | ].
  destruct (x <=? y); simpl; [reflexivity | now rewrite IH].
Qed.

Lemma sort_length l : List.length (Numpy.sort l) = List.length l.
Proof.
  induction l as [ | x r IH]; simpl; [reflexivity | ].
  now rewrite insert_length, IH.
Qed.

Lemma insert_Forall (P : Z -> Prop) x l :
  P x -> Forall P l -> Forall P (Numpy.insert x l).
Proof.
  intros Hx Hl. induction Hl as [ | y r Hy Hr IH]; simpl.
  - constructor; [exact Hx | constructor].
  - destruct (x <=? y); repeat constructor; assumption.
Qed.

Lemma sort_Forall (P : Z -> Prop) l : Forall P l -> Forall P (Numpy.sort l).
Proof.
  intros H. induction H as [ | x r Hx Hr IH]; simpl; [constructor | ].
  now apply insert_Forall.
Qed.

Lemma Forall_nth_in (P : Z -> Prop) l i :
  Forall P l -> (i < List.length l)%nat -> P (nth i l 0).
Proof.
  intros H Hi. rewrite Forall_forall in H. apply H, nth_In, Hi.
Qed.

Lemma insert_member x l y : In y (Numpy.insert x l) <-> y = x \/ In y l.
Proof.
  induction l as [ | a r IH]; simpl; [intuition | ].
  destruct (x <=? a); simpl; [intuition | ].
  rewrite IH. intuition.
Qed.

Lemma sort_member l y : In y (Numpy.sort l) <-> In y l.
Proof.
  induction l as [ | a r IH]; simpl; [tauto | ].
  rewrite insert_member, IH. intuition.
Qed.

Lemma insert_sorted x l :
  StronglySorted Z.le l -> StronglySorted Z.le (Numpy.insert x l).
Proof.
  intros H. induction H as [ | a r Hr IH Ha]; simpl.
  - constructor; constructor.
  - destruct (Z.leb_spec x a).
    + constructor; [constructor; assumption | ].
      constructor; [assumption | ].
      rewrite Forall_forall in *. intros y Hy. specialize (Ha y Hy). lia.
    + constructor; [exact IH | ].
      apply Forall_forall. intros y Hy. apply insert_member in Hy.
      destruct Hy as [-> | Hy]; [lia | ].
      rewrite Forall_forall in Ha. now apply Ha.
Qed.

Lemma sort_sorted l : StronglySorted Z.le (Numpy.sort l).
Proof.
  induction l as [ | a r IH]; simpl; [constructor | now apply insert_sorted].
Qed.

Lemma half_before_even (n : nat) :
  Nat.even n = true -> (0 < n)%nat -> Nat.div (n - 1) 2 = (Nat.div n 2 - 1)%nat.
Proof.
  intros He Hn. apply Nat.even_spec in He. destruct He as [m ->].
  replace (2 * m - 1)%nat with (1 + (m - 1) * 2)%nat by lia.
  rewrite Nat.div_add by discriminate.
  rewrite (Nat.mul_comm 2 m), Nat.div_mul by discriminate. reflexivity.
Qed.

Lemma half_before_odd (n : nat) :
  Nat.even n = false -> Nat.div (n - 1) 2 = Nat.div n 2.
Proof.
  intros He. assert (Ho : Nat.odd n = true) by (unfold Nat.odd; now rewrite He).
  apply Nat.odd_spec in Ho. destruct Ho as [m ->].
  replace (2 * m + 1 - 1)%nat with (m * 2)%nat by lia.
  replace (2 * m + 1)%nat with (1 + m * 2)%nat by lia.
  rewrite Nat.div_add, Nat.div_mul by discriminate. reflexivity.
Qed.

(** Sorting keeps the number of draws with a given property. *)
Lemma count_insert (p : Z -> bool) x l :
  List.length (filter p (Numpy.insert x l)) = List.length (filter p (x :: l)).
Proof.
  induction l as [ | y r IH]; [reflexivity | ].
  simpl. destruct (x <=? y); [reflexivity | ].
  simpl in *. destruct (p y), (p x); simpl in *; lia.
Qed.

Lemma count_sort (p : Z -> bool) l :
  List.length (filter p (Numpy.sort l)) = List.length (filter p l).
Proof.
  induction l as [ | x r IH]; [reflexivity | ].
  simpl Numpy.sort. rewrite count_insert. simpl.
  destruct (p x); simpl; now rewrite IH.
Qed.

Lemma count_none (p : Z -> bool) l :
  Forall (fun c => p c = false) l -> filter p l = [].
Proof.
  induction 1 as [ | x r Hx Hr IH]; [reflexivity | ].
  simpl. now rewrite Hx.
Qed.

(** In a sorted list the entry at position [k] has at most [k] entries
    below it and more than [k] entries not above it. *)
Lemma sorted_rank s :
  StronglySorted Z.le s -> forall k, (k < List.length s)%nat ->
  (Spec.count_below s (nth k s 0%Z) <= k
   < Spec.count_upto s (nth k s 0%Z))%nat.
Proof.
  unfold Spec.count_below, Spec.count_upto.
  induction 1 as [ | a r Hr IH Ha]; intros k Hk; [simpl in Hk; lia | ].
  destruct k as [ | k].
  - simpl. rewrite Z.ltb_irrefl, Z.leb_refl. simpl.
    rewrite count_none; [simpl; lia | ].
    eapply Forall_impl; [ | exact Ha]. intros c Hc. simpl in Hc.
    apply Z.ltb_ge. exact Hc.
  - simpl in Hk. assert (Hk' : (k < List.length r)%nat) by lia.
    specialize (IH k Hk').
    assert (Hle : a <= nth k r 0).
    { rewrite Forall_forall in Ha. apply Ha, nth_In, Hk'. }
    cbn [nth filter].
    apply Z.leb_le in Hle. rewrite Hle.
    destruct (a <? nth k r 0); simpl; lia.
Qed.

(** The entry at position [k] of the sorted draws is the draw of rank
    [k]. *)
Lemma sort_rank l k :
  (k < List.length l)%nat -> Spec.of_rank l k (nth k (Numpy.sort l) 0).
Proof.
  intros Hk. pose proof (sort_length l) as Hlen.
  split.
  - apply sort_member, nth_In. lia.
  - unfold Spec.count_below, Spec.count_upto.
    rewrite <- (count_sort _ l), <- (count_sort (fun c => c <=? _) l).
    apply (sorted_rank _ (sort_sorted l)). lia.
Qed.

Lemma count_upto_below l a b :
  a < b -> (Spec.count_upto l a <= Spec.count_below l b)%nat.
Proof.
  intros Hab. unfold Spec.count_upto, Spec.count_below.
  induction l as [ | c r IH]; [simpl; lia | ].
  simpl. destruct (Z.leb_spec c a), (Z.ltb_spec c b); simpl; lia.
Qed.

(** The rank fixes the draw. *)
Lemma of_rank_unique l k x y :
  Spec.of_rank l k x -> Spec.of_rank l k y -> x = y.
Proof.
  intros [_ [Hx1 Hx2]] [_ [Hy1 Hy2]].
  destruct (Z.lt_trichotomy x y) as [H | [H | H]]; [ | exact H | ].
  - pose proof (count_upto_below l x y H). lia.
  - pose proof (count_upto_below l y x H). lia.
Qed.

(** What [np.median] answers is the median of the draws by their ranks,
    and the ranks leave no other value. *)
Lemma median_is_median l m :
  Numpy.median l = Some m -> Spec.is_median l m.
Proof.
  unfold Numpy.median. rewrite sort_length.
  destruct (List.length l) as [ | k] eqn:Hk; [discriminate | ].
  rewrite <- Hk.
  assert (Hpos : (0 < List.length l)%nat) by lia.
  assert (Hh : (Nat.div (List.length l) 2 < List.length l)%nat).
  { apply Nat.div_lt; lia. }
  destruct (Nat.even (List.length l)) eqn:He; intros Hm; injection Hm as <-.
  - exists (nth (Nat.div (List.length l) 2 - 1) (Numpy.sort l) 0),
           (nth (Nat.div (List.length l) 2) (Numpy.sort l) 0).
    split; [ | split; [ | reflexivity]].
    + rewrite (half_before_even _ He Hpos). apply sort_rank. lia.
    + apply sort_rank. exact Hh.
  - exists (nth (Nat.div (List.length l) 2) (Numpy.sort l) 0),
           (nth (Nat.div (List.length l) 2) (Numpy.sort l) 0).
    split; [ | split].
    + rewrite (half_before_odd _ He). apply sort_rank. exact Hh.
    + apply sort_rank. exact Hh.
    + unfold Qeq. simpl. lia.
Qed.

Lemma is_median_unique l m m' :
  Spec.is_median l m -> Spec.is_median l m' -> (m == m')%Q.
Proof.
  intros [lo [hi [Hlo [Hhi Hm]]]] [lo' [hi' [Hlo' [Hhi' Hm']]]].
  rewrite (of_rank_unique _ _ _ _ Hlo Hlo'),
    (of_rank_unique _ _ _ _ Hhi Hhi') in Hm.
  rewrite Hm, Hm'. reflexivity.
Qed.

(** [int] of a float that is not negative: the integer at or next below. *)
Lemma int_of_Q_floor (q : Q) : (0 <= q)%Q ->
  (inject_Z (int_of_Q q) <= q)%Q /\ (q < inject_Z (int_of_Q q) + 1)%Q.
Proof.
  destruct q as [a b]. unfold Qle, Qlt, int_of_Q. simpl.
  intros Ha. rewrite Z.mul_1_r in Ha.
  rewrite Z.quot_div_nonneg by lia.
  pose proof (Z.mul_div_le a (Z.pos b) ltac:(lia)).
  pose proof (Z.mul_succ_div_gt a (Z.pos b) ltac:(lia)).
  split; nia.
Qed.

Lemma median_not_negative l m :
  Forall (fun c => 0 <= c) l -> Spec.is_median l m -> (0 <= m)%Q.
Proof.
  intros Hl [lo [hi [[Hlo _] [[Hhi _] Hm]]]].
  rewrite Forall_forall in Hl.
  pose proof (Hl lo Hlo). pose proof (Hl hi Hhi).
  rewrite Hm. unfold Qle, Qdiv, Qmult, Qplus, Qinv, inject_Z. simpl. lia.
Qed.

(** The median of draws between [0] and [hi], cut to an integer, is
    between [0] and [hi]. *)
Lemma median_in_support l hi :
  l <> [] -> Forall (fun c => 0 <= c <= hi) l ->
  exists m, Numpy.median l = Some m /\ 0 <= int_of_Q m <= hi.
Proof.
  intros Hne Hl. unfold Numpy.median.
  pose proof (sort_length l) as Hlen.
  pose proof (sort_Forall _ _ Hl) as Hs.
  destruct (List.length (Numpy.sort l)) as [ | k] eqn:Hk.
  - destruct l; [congruence | discriminate].
  - assert (Hh : (Nat.div (S k) 2 < List.length (Numpy.sort l))%nat).
    { rewrite Hk. apply Nat.div_lt; lia. }
    assert (Hh' : (Nat.div (S k) 2 - 1 < List.length (Numpy.sort l))%nat) by lia.
    pose proof (Forall_nth_in _ _ _ Hs Hh) as Hhi.
    pose proof (Forall_nth_in _ _ _ Hs Hh') as Hlo.
    simpl in Hhi, Hlo.
    destruct (Nat.even (S k)); eexists; (split; [reflexivity | ]).
    + unfold int_of_Q. simpl.
      set (a := nth (Nat.div (S k) 2 - 1) (Numpy.sort l) 0) in *.
      set (b := nth (Nat.div (S k) 2) (Numpy.sort l) 0) in *.
      rewrite Z.quot_div_nonneg by lia.
      split.
      * apply Z.div_pos; lia.
      * apply Z.div_le_upper_bound; lia.
    + unfold int_of_Q. simpl. rewrite Z.quot_1_r. exact Hhi.
Qed.

Lemma iloc_in_range {A} (l : list A) (i : Z) :
  0 <= i < Z.of_nat (List.length l) ->
  exists a, nth_error l (Z.to_nat i) = Some a /\ iloc l i = Returned a.
Proof.
  intros Hi. unfold iloc.
  destruct (Z.ltb_spec i 0) as [Hn | _]; [lia | ].
  destruct (Z.leb_spec 0 i) as [_ | Hn]; [ | lia].
  destruct (Z.ltb_spec i (Z.of_nat (List.length l))) as [_ | Hn]; [ | lia].
  simpl. destruct (nth_error l (Z.to_nat i)) as [a | ] eqn:E.
  - exists a. split; reflexivity.
  - apply nth_error_None in E. lia.
Qed.

Lemma switch_at_nth n cp (first second : Q) i :
  (i < n)%nat ->
  nth_error (switch_at n cp first second) i
  = Some (if Z.of_nat i <=? cp then first else second).
Proof.
  intros Hi. unfold switch_at, Numpy.arange.
  rewrite nth_error_map, nth_error_seq.
  destruct (Nat.ltb_spec i n) as [_ | Hn]; [ | lia]. simpl.
  rewrite Z.geb_leb. reflexivity.
Qed.

Lemma Forall_of_forallb {A} (f : A -> bool) (l : list A) :
  forallb f l = true -> Forall (fun x => f x = true) l.
Proof. intros H. apply Forall_forall. now apply forallb_forall. Qed.

(** C1: for every non-empty series, the model handed to the sampler has
    one change point [cp] uniform on the indices [0 .. n-1], with the
    observation at index [i] under the first regime's mean and deviation
    when [i <= cp] and under the second regime's when [i > cp]; and when
    the sampler returns draws of the change point within that support, the
    operation returns the date of the series at the index that is the
    median of all retained draws: the draw in the middle of the draws in
    increasing order, or the mean of the two in the middle, cut to the
    integer at or next below it. *)
Theorem bayesian_returns_date_at_posterior_median
  (L : Libs) (w : World) (trace : list (list Z)) :
  let model := change_point_model (Price (price_data w)) in
  price_data w <> [] ->
  pm_sample L model 4000 2000 4 42 = Returned trace ->
  List.concat trace <> [] ->
  Forall (fun c => change_point_lower model <= c <= change_point_upper model)
         (List.concat trace) ->
  (change_point_lower model = 0 /\
   change_point_upper model = Z.of_nat (List.length (price_data w)) - 1 /\
   observed model = Price (price_data w) /\
   forall cp first second i, (i < List.length (price_data w))%nat ->
     nth_error (obs_mu model cp first second) i
     = Some (if Z.of_nat i <=? cp then first else second) /\
     nth_error (obs_sigma model cp first second) i
     = Some (if Z.of_nat i <=? cp then first else second)) /\
  exists median cp_est cp_date,
    Spec.is_median (List.concat trace) median /\
    Numpy.median (List.concat trace) = Some median /\
    cp_est = int_of_Q median /\
    (inject_Z cp_est <= median)%Q /\ (median < inject_Z cp_est + 1)%Q /\
    0 <= cp_est < Z.of_nat (List.length (price_data w)) /\
    nth_error (index (price_data w)) (Z.to_nat cp_est) = Some cp_date /\
    bayesian_change_point_detection L w
    = (Returned (Some cp_date),
       with_log
         (with_shown (with_shown w (TraceFigure trace))
                     (EstimatedChangePointDate cp_date))
         (INFO, BayesianDetectedAt cp_date)).
Proof.
  intros model _ Hsample Hne Hsupport.
  assert (Hn : List.length (Price (price_data w)) = List.length (price_data w)).
  { unfold Price. apply length_map. }
  split.
  - split; [reflexivity | ]. split; [simpl; now rewrite Hn | ].
    split; [reflexivity | ].
    intros cp p1 p2 i Hi. simpl. rewrite Hn.
    split; apply switch_at_nth; exact Hi.
  - destruct (median_in_support _ _ Hne Hsupport) as [m [Hm Hb]].
    simpl in Hb. rewrite Hn in Hb.
    assert (Hi : 0 <= int_of_Q m < Z.of_nat (List.length (index (price_data w)))).
    { unfold index. rewrite length_map. lia. }
    destruct (iloc_in_range _ _ Hi) as [cp_date [Hnth Hiloc]].
    pose proof (median_is_median _ _ Hm) as Hmed.
    assert (Hpos : (0 <= m)%Q).
    { apply (median_not_negative (List.concat trace)); [ | exact Hmed].
      eapply Forall_impl; [ | exact Hsupport]. simpl. intros c Hc. lia. }
    destruct (int_of_Q_floor m Hpos) as [Hlo Hhi].
    exists m, (int_of_Q m), cp_date.
    split; [exact Hmed | ]. split; [exact Hm | ]. split; [reflexivity | ].
    split; [exact Hlo | ]. split; [exact Hhi | ]. split; [lia | ].
    split; [exact Hnth | ].
    unfold bayesian_change_point_detection, try_except, bind, self_price_data,
      lift, show, log, ret.
    fold model. rewrite Hsample, Hm. simpl. rewrite Hiloc. reflexivity.
Qed.

(** C1 on the seven-point series with twelve draws spread over the
    indexes: the two in the middle of the draws in increasing order are 3
    and 4, the median 3.5 is cut to 3, and the date of index 3 is day
    200. *)
Lemma bayesian_returns_date_at_posterior_median_witness :
  Spec.is_median [1; 6; 3; 4; 2; 5; 3; 4; 0; 6; 4; 2] (7 # 2) /\
  result (bayesian_change_point_detection
            Demo.libs_with_spread_draws Demo.world)
  = Returned (Some 200).
Proof.
  destruct (bayesian_returns_date_at_posterior_median
              Demo.libs_with_spread_draws Demo.world
              [[1; 6; 3]; [4; 2; 5]; [3; 4; 0]; [6; 4; 2]])
    as [_ [m [cp [cp_date [Hmed [Hm [Hcp [_ [_ [_ [Hnth Hrun]]]]]]]]]]].
  - discriminate.
  - reflexivity.
  - discriminate.
  - repeat constructor; simpl; lia.
  - vm_compute in Hm. injection Hm as <-.
    vm_compute in Hcp. subst cp.
    vm_compute in Hnth. injection Hnth as <-.
    split; [exact Hmed | ]. rewrite Hrun. reflexivity.
Defined.




(** No draw retained: the median is NaN, [int] raises ValueError, and
    the handler turns it into [None]. *)
Example bayesian_without_draws :
  result (bayesian_change_point_detection Demo.libs_without_draws Demo.world)
  = Returned None /\
  logger (after (bayesian_change_point_detection
                   Demo.libs_without_draws Demo.world))
  = [(ERROR, BayesianFailed ValueError)].
Proof. split; reflexivity. Qed.

End Bayesian.

(** ** Segmentation *)

Section Segmentation.
Import Pandas EventChangeAnalyzer.

Lemma comprehension_map {X Y} (f : X -> outcome Y) (g : X -> Y) l :
  (forall x, In x l -> f x = Returned (g x)) ->
  comprehension f l = Returned (map g l).
Proof.
  induction l as [ | x r IH]; intros H; simpl; [reflexivity | ].
  rewrite (H x (or_introl eq_refl)), IH; [reflexivity | ].
  intros y Hy. apply H. now right.
Qed.

Lemma last_in l : l <> [] -> In (last l 0) l.
Proof.
  induction l as [ | a r IH]; [congruence | ]. intros _.
  destruct r as [ | b r']; [now left | ].
  right. apply IH. discriminate.
Qed.

(** In an increasing list, all entries but the last lie between the first
    and the last. *)
Lemma increasing_interior l :
  increasing l = true ->
  forall x, In x (removelast l) -> hd 0 l <= x < last l 0.
Proof.
  induction l as [ | a r IH]; intros Hs x Hx; [destruct Hx | ].
  destruct r as [ | b r']; [destruct Hx | ].
  pose proof (increasing_head_lt _ _ Hs) as Hlt.
  change (last (a :: b :: r') 0) with (last (b :: r') 0).
  change (removelast (a :: b :: r')) with (a :: removelast (b :: r')) in Hx.
  simpl hd. destruct Hx as [<- | Hx].
  - split; [lia | ]. apply Hlt, last_in. discriminate.
  - specialize (IH (increasing_tail _ _ Hs) x Hx). simpl hd in IH.
    specialize (Hlt b (or_introl eq_refl)). lia.
Qed.

Lemma iloc_nth {A} (l : list A) (i : Z) (d : A) :
  0 <= i < Z.of_nat (List.length l) ->
  iloc l i = Returned (nth (Z.to_nat i) l d).
Proof.
  intros Hi. destruct (iloc_in_range l i Hi) as [a [Hn ->]].
  now rewrite (nth_error_nth _ _ d Hn).
Qed.

(** C2 (as the code has it): for a valid breakpoint count [1 <= k <
    length(series)] and the change-point set the segmentation library
    answers ([k+1] increasing positions ending in the sentinel
    [length(series)]), the operation drops the sentinel, prints the years
    of the [k] interior boundaries and marks each on the plot; it hands
    Python's [None], not the boundaries, back to its caller. *)
Theorem detect_change_point_reports_interior_years
  (L : Libs) (w : World) (k : Z) (bkps : list Z) :
  let df := price_data w in
  let date_at := fun cp => nth (Z.to_nat cp) (index df) 0 in
  let price_at := fun cp => nth (Z.to_nat cp) (Price df) 0%Q in
  let interior := all_but_last bkps in
  let change_years := map (fun cp => year L (date_at cp)) interior in
  let marks :=
    map (fun cp => (date_at cp, price_at cp, year L (date_at cp))) interior in
  1 <= k < Z.of_nat (List.length df) ->
  binseg_predict L (Price df) k = Returned bkps ->
  Spec.change_point_set (List.length df) k bkps = true ->
  detect_change_point L k w
  = (Returned None,
     with_shown (with_shown w (DetectedYears change_years))
                (ChangePointFigure df marks)) /\
  List.length bkps = S (Z.to_nat k) /\
  last bkps 0 = Z.of_nat (List.length df) /\
  List.length change_years = Z.to_nat k /\
  Forall (fun cp => 0 < cp < Z.of_nat (List.length df)) interior.
Proof.
  intros df date_at price_at interior change_years marks Hk Hlib Hset.
  unfold Spec.change_point_set in Hset.
  repeat (apply andb_true_iff in Hset; destruct Hset as [Hset ?]).
  apply Z.eqb_eq in Hset.
  match goal with H : (last _ _ =? _) = true |- _ => apply Z.eqb_eq in H end.
  match goal with H : (0 <? _) = true |- _ => apply Z.ltb_lt in H end.
  assert (Hin : forall cp, In cp interior -> 0 < cp < Z.of_nat (List.length df)).
  { intros cp Hcp.
    pose proof (increasing_interior bkps ltac:(assumption) cp Hcp) as Hb.
    unfold Timestamp in Hb. lia. }
  assert (Hlen : List.length interior = Z.to_nat k).
  { unfold interior, all_but_last.
    destruct bkps as [ | a r]; [simpl in Hset; lia | ].
    rewrite removelast_firstn_len, length_firstn. simpl in *. lia. }
  split; [ | split; [lia | split; [assumption | split]]].
  - unfold detect_change_point, try_except, bind, self_price_data, lift, show,
      ret. fold df. rewrite Hlib. fold interior.
    rewrite (comprehension_map _ (fun cp => year L (date_at cp))).
    2:{ intros cp Hcp. apply Hin in Hcp.
        rewrite (iloc_nth (index df) cp 0); [reflexivity | ].
        unfold index. rewrite length_map. lia. }
    rewrite (comprehension_map _
               (fun cp => (date_at cp, price_at cp, year L (date_at cp)))).
    2:{ intros cp Hcp. apply Hin in Hcp.
        rewrite (iloc_nth (index df) cp 0), (iloc_nth (Price df) cp 0%Q);
          [reflexivity | | ].
        - unfold Price. rewrite length_map. lia.
        - unfold index. rewrite length_map. lia. }
    reflexivity.
  - unfold change_years. now rewrite length_map.
  - apply Forall_forall. exact Hin.
Qed.

(** C2 on the seven-point series with two breakpoints: the library's
    [1, 2, 7] gives the years of positions 1 and 2. *)
Lemma detect_change_point_reports_interior_years_witness :
  detect_change_point Demo.libs 2 Demo.world
  = (Returned None,
     with_shown
       (with_shown Demo.world (DetectedYears [1970; 1970]))
       (ChangePointFigure Demo.series
          [(110, 52%Q, 1970); (170, 55%Q, 1970)])).
Proof.
  apply (detect_change_point_reports_interior_years
           Demo.libs Demo.world 2 [1; 2; 7]).
  - simpl. lia.
  - reflexivity.
  - reflexivity.
Defined.

(** C2, the claim as stated fails: with two breakpoints on the
    seven-point series the call returns [None], so no list of three
    boundaries reaches the caller. *)
Lemma detect_change_point_returns_no_boundaries :
  ~ Spec.returns_sequence (detect_change_point Demo.libs 2 Demo.world) 3.
Proof.
  intros [l [H _]]. vm_compute in H. discriminate.
Qed.

(** C3 (as the code has it): for a breakpoint count [k >=
    length(series)] that the segmentation library rejects with an
    exception, the operation catches the exception, logs it as an error
    and returns [None]: no exception reaches the caller. *)
Theorem detect_change_point_logs_library_error
  (L : Libs) (w : World) (k : Z) (e : exn) :
  Z.of_nat (List.length (price_data w)) <= k ->
  binseg_predict L (Price (price_data w)) k = Raised e ->
  detect_change_point L k w
  = (Returned None, with_log w (ERROR, ErrorDetectingChangePoints e)) /\
  ~ Spec.raises (detect_change_point L k w).
Proof.
  intros _ Hlib.
  assert (Hrun : detect_change_point L k w
                 = (Returned None,
                    with_log w (ERROR, ErrorDetectingChangePoints e))).
  { unfold detect_change_point, try_except, bind, self_price_data, lift.
    rewrite Hlib. reflexivity. }
  split; [exact Hrun | ].
  intros [e' He]. rewrite Hrun in He. discriminate.
Qed.

(** C3 on the seven-point series with nine breakpoints. *)
Lemma detect_change_point_logs_library_error_witness :
  detect_change_point Demo.libs 9 Demo.world
  = (Returned None,
     with_log Demo.world
       (ERROR,
        ErrorDetectingChangePoints (LibraryError "BadSegmentationParameters"))).
Proof.
  apply (detect_change_point_logs_library_error Demo.libs Demo.world 9).
  - simpl. lia.
  - reflexivity.
Defined.

(** C3, the claim as stated fails: nine breakpoints on seven points, the
    library raises, and the call returns normally. *)
Lemma detect_change_point_raises_nothing :
  7 <= 9 /\ ~ Spec.raises (detect_change_point Demo.libs 9 Demo.world).
Proof.
  split; [lia | ]. intros [e H]. vm_compute in H. discriminate.
Qed.

End Segmentation.

(** ** Cumulative returns and event windows *)

Section Windows.
Import Pandas EventChangeAnalyzer.

Lemma restore_length (s : list float) : forall l',
  List.length l' = List.length s ->
  List.length
    (map (fun p : float * Q =>
            match fst p with Some _ => Some (snd p) | None => NaN end)
         (combine s l'))
  = List.length s.
Proof.
  intros l' H. rewrite length_map, length_combine. lia.
Qed.

Lemma na_accum_length op u s : List.length (na_accum op u s) = List.length s.
Proof.
  unfold na_accum. apply restore_length.
  now rewrite accumulate_length, length_map.
Qed.

Lemma pct_change_length s : List.length (pct_change s) = List.length s.
Proof.
  destruct s as [ | x r]; simpl; [reflexivity | ]. f_equal.
  revert x. induction r as [ | y r IH]; intros x; simpl; [reflexivity | ].
  now rewrite IH.
Qed.

Lemma returns_length s :
  List.length (cumprod (add 1%Q (pct_change s))) = List.length s.
Proof.
  unfold cumprod, add. now rewrite na_accum_length, length_map, pct_change_length.
Qed.

Lemma iloc_last {A} (l : list A) (d : A) :
  l <> [] -> iloc l (-1) = Returned (nth (List.length l - 1) l d).
Proof.
  intros Hne. unfold iloc.
  assert (Hl : (0 < List.length l)%nat) by (destruct l; [congruence | simpl; lia]).
  change (-1 <? 0) with true. cbv iota.
  destruct (Z.leb_spec 0 (Z.of_nat (List.length l) + -1)) as [_ | Hn]; [ | lia].
  destruct (Z.ltb_spec (Z.of_nat (List.length l) + -1)
                       (Z.of_nat (List.length l))) as [_ | Hn]; [ | lia].
  simpl.
  replace (Z.to_nat (Z.of_nat (List.length l) + -1))
    with (List.length l - 1)%nat by lia.
  destruct (nth_error l (List.length l - 1)) as [a | ] eqn:E.
  - now rewrite (nth_error_nth _ _ d E).
  - apply nth_error_None in E. lia.
Qed.

(** The compounded return of a window raises IndexError exactly on the
    empty window. *)
Lemma cumulative_return_empty : cumulative_return [] = Raised IndexError.
Proof. reflexivity. Qed.

Lemma cumulative_return_total s :
  s <> [] -> exists x, cumulative_return s = Returned x.
Proof.
  intros Hne. unfold cumulative_return.
  rewrite (iloc_last _ NaN).
  - eexists. reflexivity.
  - intros H. apply (f_equal (@List.length _)) in H.
    rewrite returns_length in H. destruct s; [congruence | discriminate].
Qed.

Lemma pct_change_from_some r : forall x i,
  (i < List.length r)%nat ->
  exists v, nth_error (pct_change_from x r) i = Some (Some v).
Proof.
  induction r as [ | y r IH]; intros x i Hi; simpl in Hi; [lia | ].
  destruct i as [ | j]; simpl.
  - eexists. reflexivity.
  - apply IH. lia.
Qed.

Lemma restore_some_at (s : list float) : forall l' i v,
  List.length l' = List.length s ->
  nth_error s i = Some (Some v) ->
  exists x,
    nth_error
      (map (fun p : float * Q =>
              match fst p with Some _ => Some (snd p) | None => NaN end)
           (combine s l')) i
    = Some (Some x).
Proof.
  induction s as [ | a s IH]; intros [ | b l'] i v Hlen Hi; simpl in Hlen;
    try discriminate; try (destruct i; discriminate).
  destruct i as [ | j]; simpl in *.
  - injection Hi as ->. eexists. reflexivity.
  - eapply IH; [lia | exact Hi].
Qed.

(** With two prices or more in the window the compounded return is a
    number. *)
Lemma cumulative_return_some s :
  (2 <= List.length s)%nat ->
  exists x, cumulative_return s = Returned (Some x).
Proof.
  intros Hlen. unfold cumulative_return.
  assert (Hne : cumprod (add 1%Q (pct_change s)) <> []).
  { intros H. apply (f_equal (@List.length _)) in H.
    rewrite returns_length in H. simpl in H. lia. }
  rewrite (iloc_last _ NaN Hne), returns_length.
  destruct s as [ | a r]; [simpl in Hlen; lia | ].
  simpl in Hlen.
  assert (Hi : (List.length r - 1 < List.length r)%nat) by lia.
  destruct (pct_change_from_some r a _ Hi) as [v Hv].
  assert (Hs : nth_error (add 1%Q (pct_change (a :: r))) (List.length (a :: r) - 1)
               = Some (Some (v + 1)%Q)).
  { unfold add. rewrite nth_error_map. simpl List.length.
    replace (S (List.length r) - 1)%nat with (S (List.length r - 1)) by lia.
    simpl. rewrite Hv. reflexivity. }
  unfold cumprod, na_accum.
  destruct (restore_some_at (add 1%Q (pct_change (a :: r)))
              (accumulate Qmult (map (fillna 1%Q) (add 1%Q (pct_change (a :: r)))))
              _ _ ltac:(now rewrite accumulate_length, length_map) Hs)
    as [x Hx].
  rewrite (nth_error_nth _ _ NaN Hx). simpl. eexists. reflexivity.
Qed.

Lemma filter_none {A} (f : A -> bool) (l : list A) :
  (forall x, In x l -> f x = false) -> filter f l = [].
Proof.
  induction l as [ | a r IH]; intros H; simpl; [reflexivity | ].
  rewrite (H a (or_introl eq_refl)). apply IH. intros x Hx. apply H. now right.
Qed.

Lemma two_members {A} (l : list A) (x y : A) :
  In x l -> In y l -> x <> y -> (2 <= List.length l)%nat.
Proof.
  intros Hx Hy Hne. apply in_split in Hx. destruct Hx as [l1 [l2 ->]].
  rewrite length_app. simpl.
  apply in_app_or in Hy. destruct Hy as [Hy | [Hy | Hy]].
  - destruct l1; [destruct Hy | simpl; lia].
  - congruence.
  - destruct l2; [destruct Hy | simpl; lia].
Qed.

(** The slice up to the event date of the window around it, and the
    slice from the event date. *)
Lemma loc_upto_between df lo hi d :
  d <= hi -> loc_upto (between df lo hi) d = between df lo d.
Proof.
  intros H. unfold loc_upto, between.
  induction df as [ | [t p] r IH]; simpl; [reflexivity | ].
  destruct (Z.leb_spec lo t), (Z.leb_spec t hi), (Z.leb_spec t d);
    simpl; try destruct (Z.leb_spec t d); try rewrite IH; try reflexivity; lia.
Qed.

Lemma loc_from_between df lo hi d :
  lo <= d -> loc_from (between df lo hi) d = between df d hi.
Proof.
  intros H. unfold loc_from, between.
  induction df as [ | [t p] r IH]; simpl; [reflexivity | ].
  destruct (Z.leb_spec lo t), (Z.leb_spec t hi), (Z.leb_spec d t);
    simpl; try destruct (Z.leb_spec d t); try rewrite IH; try reflexivity; lia.
Qed.

Lemma has_date_in df t :
  Spec.has_date df t = true -> exists p, In (t, p) df.
Proof.
  unfold Spec.has_date. destruct (lookup df t) as [p | ] eqn:E; [ | discriminate].
  intros _. exists p. now apply lookup_some_in.
Qed.

Lemma between_in df lo hi t p :
  In (t, p) df -> lo <= t <= hi -> In (t, p) (between df lo hi).
Proof.
  intros Hin Ht. unfold between. apply filter_In. split; [exact Hin | ].
  simpl. apply andb_true_iff. split; apply Z.leb_le; lia.
Qed.

(** Two dates of the series inside a window make it two prices long. *)
Lemma between_two df lo hi t1 t2 :
  Spec.has_date df t1 = true -> Spec.has_date df t2 = true ->
  t1 <> t2 -> lo <= t1 <= hi -> lo <= t2 <= hi ->
  (2 <= List.length (Price (between df lo hi)))%nat.
Proof.
  intros H1 H2 Hne Hr1 Hr2.
  destruct (has_date_in _ _ H1) as [p1 Hp1].
  destruct (has_date_in _ _ H2) as [p2 Hp2].
  unfold Price. rewrite length_map.
  apply (two_members _ (t1, p1) (t2, p2));
    [now apply between_in | now apply between_in | congruence].
Qed.

(** Outside the range of the series one side of the window is empty. *)
Lemma outside_range_empty_side df d lo hi :
  Spec.outside_range df d = true ->
  between df lo d = [] \/ between df d hi = [].
Proof.
  unfold Spec.outside_range. intros H. apply orb_true_iff in H.
  destruct H as [H | H]; rewrite forallb_forall in H; [left | right];
    apply filter_none; intros [t p] Hin;
    specialize (H t (in_map fst _ _ Hin)); simpl in *;
    apply Z.ltb_lt in H; apply andb_false_iff.
  - right. apply Z.leb_gt. lia.
  - left. apply Z.leb_gt. lia.
Qed.

End Windows.

(** ** The event loop *)

Section Events.
Import Pandas EventChangeAnalyzer.

(** An event outside the range of the series: the loop logs the
    IndexError of the empty side and records no row. *)
Lemma analyze_event_outside L event s results w d :
  to_datetime L s = Returned d ->
  Spec.outside_range (price_data w) d = true ->
  analyze_event L (event, s) results w
  = (Returned results,
     with_log w (WARNING, CouldNotProcessEvent event IndexError)).
Proof.
  intros Hd Hout. rewrite (analyze_event_run _ _ _ _ _ _ Hd). cbv zeta.
  rewrite loc_upto_between by lia. rewrite loc_from_between by lia.
  destruct (outside_range_empty_side _ _ (d - 180) (d + 180) Hout) as [E | E];
    rewrite E.
  - reflexivity.
  - destruct (Price (between (price_data w) (d - 180) d)) as [ | q s'] eqn:Ep.
    + reflexivity.
    + destruct (cumulative_return_total (q :: s')) as [x ->];
        [discriminate | reflexivity].
Qed.

Lemma horizons_present_dates df d :
  Spec.horizons_present df d = true ->
  forall h, In h [30; 90; 180] ->
    Spec.has_date df (d - h) = true /\ Spec.has_date df (d + h) = true.
Proof.
  unfold Spec.horizons_present. intros H h Hh.
  rewrite forallb_forall in H. specialize (H h Hh).
  now apply andb_true_iff in H.
Qed.

Lemma percentage_change_present df d h :
  Spec.has_date df (d - h) = true -> Spec.has_date df (d + h) = true ->
  exists x, Spec.percentage_change_at df d h = Some x.
Proof.
  unfold Spec.has_date, Spec.percentage_change_at.
  destruct (lookup df (d - h)); [ | discriminate].
  destruct (lookup df (d + h)); [ | discriminate].
  intros _ _. eexists. reflexivity.
Qed.

(** An event with its six dates in the series: the loop records a row
    with the five metrics and logs nothing. *)
Lemma analyze_event_populated L event s results w d :
  to_datetime L s = Returned d ->
  Spec.horizons_present (price_data w) d = true ->
  exists row,
    analyze_event L (event, s) results w = (Returned (results ++ [row]), w) /\
    Event row = event /\ Date row = s /\ Spec.fully_populated row.
Proof.
  intros Hd Hp. pose proof (horizons_present_dates _ _ Hp) as H.
  destruct (H 30 ltac:(simpl; tauto)) as [Hm30 Hp30].
  destruct (H 90 ltac:(simpl; tauto)) as [Hm90 Hp90].
  destruct (H 180 ltac:(simpl; tauto)) as [Hm180 Hp180].
  rewrite (analyze_event_run _ _ _ _ _ _ Hd). cbv zeta.
  rewrite loc_upto_between by lia. rewrite loc_from_between by lia.
  destruct (cumulative_return_some
              (Price (between (price_data w) (d - 180) d))) as [cb ->].
  { apply (between_two _ _ _ (d - 180) (d - 30)); try assumption; lia. }
  destruct (cumulative_return_some
              (Price (between (price_data w) d (d + 180)))) as [ca ->].
  { apply (between_two _ _ _ (d + 30) (d + 180)); try assumption; lia. }
  eexists. split; [reflexivity | ]. split; [reflexivity | ].
  split; [reflexivity | ]. unfold Spec.fully_populated. simpl.
  repeat split; try (apply percentage_change_present; assumption);
    eexists; reflexivity.
Qed.

Lemma horizons_present_inside df d :
  Spec.horizons_present df d = true -> Spec.outside_range df d = false.
Proof.
  intros Hp. pose proof (horizons_present_dates _ _ Hp) as H.
  destruct (H 30 ltac:(simpl; tauto)) as [Hm Hpl].
  apply has_date_in in Hm. destruct Hm as [p1 Hm].
  apply has_date_in in Hpl. destruct Hpl as [p2 Hpl].
  unfold Spec.outside_range. apply orb_false_iff. split.
  - destruct (forallb (fun t => d <? t) (index df)) eqn:E; [ | reflexivity].
    rewrite forallb_forall in E.
    specialize (E (d - 30) (in_map fst _ _ Hm)). apply Z.ltb_lt in E. lia.
  - destruct (forallb (fun t => t <? d) (index df)) eqn:E; [ | reflexivity].
    rewrite forallb_forall in E.
    specialize (E (d + 30) (in_map fst _ _ Hpl)). apply Z.ltb_lt in E. lia.
Qed.

(** The trend plot goes through when every date string parses. *)
Lemma plot_trends_run L evs b a w :
  (forall ev, In ev evs -> exists d, to_datetime L (snd ev) = Returned d) ->
  exists curves,
    _plot_price_trends_around_events L evs b a w
    = (Returned tt, with_shown w (PriceTrendsFigure curves)).
Proof.
  intros Hparse. unfold _plot_price_trends_around_events.
  assert (Hloop : forall acc, exists curves,
            for_ evs (plot_event_curve L b a) acc w = (Returned curves, w)).
  { induction evs as [ | [event s] r IH]; intros acc.
    - exists acc. reflexivity.
    - destruct (Hparse (event, s) (or_introl eq_refl)) as [d Hd].
      simpl in Hd.
      destruct (IH (fun ev H => Hparse ev (or_intror H))
                   (acc ++ [(event, d, between (price_data w) (d - b) (d + a))]))
        as [curves Hc].
      exists curves. simpl for_.
      rewrite (bind_returned _ _ w
                 (acc ++ [(event, d, between (price_data w) (d - b) (d + a))]) w);
        [exact Hc | ].
      unfold plot_event_curve, bind, lift, _get_prices_around_event,
        self_price_data, ret, timedelta. simpl. rewrite Hd. reflexivity. }
  destruct (Hloop []) as [curves Hc]. exists curves.
  rewrite (bind_returned _ _ _ _ _ Hc). reflexivity.
Qed.

Lemma dict_set_keys {V} (d : list (string * V)) k v k' :
  In k' (map fst (dict_set d k v)) <-> k' = k \/ In k' (map fst d).
Proof.
  induction d as [ | [k0 v0] r IH]; simpl.
  - intuition congruence.
  - destruct (String.eqb_spec k0 k) as [-> | Hne]; simpl.
    + intuition congruence.
    + rewrite IH. intuition congruence.
Qed.

(** One turn of the comparison loop: the test is run on the prices dated
    within 180 days before the event and on those within 180 days after
    it; whatever it returns is entered in the table. *)
Lemma compare_event_run L event s results w d r :
  to_datetime L s = Returned d ->
  ttest_ind L (Price (between (price_data w) (d - 180) d))
              (Price (between (price_data w) d (d + 180))) = Returned r ->
  compare_event L (event, s) results w
  = (Returned (dict_set results event r), w).
Proof.
  intros Hd Ht.
  unfold compare_event, try_except, bind, lift, _get_prices_around_event,
    self_price_data, ret, timedelta. simpl. rewrite Hd.
  rewrite loc_upto_between by lia. rewrite loc_from_between by lia.
  rewrite Ht. reflexivity.
Qed.

Lemma compare_loop_run L w evs :
  (forall ev, In ev evs -> exists d, to_datetime L (snd ev) = Returned d) ->
  (forall x y, exists r, ttest_ind L x y = Returned r) ->
  forall acc, exists table,
    for_ evs (compare_event L) acc w = (Returned table, w) /\
    (forall k, In k (map fst acc) \/ In k (map fst evs) ->
               In k (map fst table)).
Proof.
  intros Hparse Htest.
  induction evs as [ | [event s] r IH]; intros acc.
  - exists acc. split; [reflexivity | ]. simpl. tauto.
  - destruct (Hparse (event, s) (or_introl eq_refl)) as [d Hd]. simpl in Hd.
    destruct (Htest (Price (between (price_data w) (d - 180) d))
                    (Price (between (price_data w) d (d + 180)))) as [t Ht].
    destruct (IH (fun ev H => Hparse ev (or_intror H)) (dict_set acc event t))
      as [table [Hrun Hkeys]].
    exists table. split.
    + simpl for_.
      rewrite (bind_returned _ _ _ _ _
                 (compare_event_run L event s acc w d t Hd Ht)).
      exact Hrun.
    + intros k Hk. apply Hkeys. simpl in Hk.
      destruct Hk as [Hk | [Hk | Hk]].
      * left. apply dict_set_keys. now right.
      * left. apply dict_set_keys. now left.
      * now right.
Qed.

(** The comparison step when the parser and the test return: every event
    gets its entry and nothing is logged. *)
Lemma statistical_analysis_run L w evs :
  (forall ev, In ev evs -> exists d, to_datetime L (snd ev) = Returned d) ->
  (forall x y, exists r, ttest_ind L x y = Returned r) ->
  exists table,
    _perform_statistical_analysis L evs w
    = (Returned table, with_shown w (StatFrame table)) /\
    (forall k, In k (map fst evs) -> In k (map fst table)).
Proof.
  intros Hparse Htest.
  destruct (compare_loop_run L w evs Hparse Htest []) as [table [Hrun Hkeys]].
  exists table. split.
  - unfold _perform_statistical_analysis.
    rewrite (bind_returned _ _ _ _ _ Hrun). reflexivity.
  - intros k Hk. apply Hkeys. now right.
Qed.

(** The event loop itself never raises: every event gets its turn. *)
Lemma event_loop_never_raises L evs : forall results w,
  exists rows w', for_ evs (analyze_event L) results w = (Returned rows, w').
Proof.
  induction evs as [ | ev r IH]; intros results w.
  - exists results, w. reflexivity.
  - assert (H : exists rows1 w1,
              analyze_event L ev results w = (Returned rows1, w1)).
    { unfold analyze_event, try_except.
      destruct (bind _ _ w) as [[rows1 | e] w1]; [eauto | ].
      unfold is_Exception, bind, log, ret. eauto. }
    destruct H as [rows1 [w1 H]].
    destruct (IH rows1 w1) as [rows [w' Hr]].
    exists rows, w'. simpl for_. now rewrite (bind_returned _ _ _ _ _ H).
Qed.

(** What follows the event loop, when it recorded a row at least. *)
Lemma analyze_after_loop L evs w rows w1 :
  for_ evs (analyze_event L) [] w = (Returned rows, w1) ->
  rows <> [] ->
  (forall ev, In ev evs -> exists d, to_datetime L (snd ev) = Returned d) ->
  (forall x y, exists r, ttest_ind L x y = Returned r) ->
  exists curves table,
    analyze_price_changes_around_events L evs w
    = (Returned (rows, table),
       with_shown
         (with_shown (with_shown w1 (PriceTrendsFigure curves))
                     (ImpactFigure rows))
         (StatFrame table)) /\
    (forall k, In k (map fst evs) -> In k (map fst table)).
Proof.
  intros Hloop Hne Hparse Htest.
  destruct (plot_trends_run L evs 180 180 w1 Hparse) as [curves Hc].
  destruct (statistical_analysis_run L
              (with_shown (with_shown w1 (PriceTrendsFigure curves))
                          (ImpactFigure rows)) evs Hparse Htest)
    as [table [Ht Hkeys]].
  exists curves, table. split; [ | exact Hkeys].
  unfold analyze_price_changes_around_events.
  rewrite (bind_returned _ _ _ _ _ Hloop).
  rewrite (bind_returned _ _ _ _ _ Hc).
  assert (Hm : _plot_percentage_changes_and_cumulative_returns rows
                 (with_shown w1 (PriceTrendsFigure curves))
               = (Returned tt,
                  with_shown (with_shown w1 (PriceTrendsFigure curves))
                             (ImpactFigure rows))).
  { destruct rows; [congruence | reflexivity]. }
  rewrite (bind_returned _ _ _ _ _ Hm).
  rewrite (bind_returned _ _ _ _ _ Ht). reflexivity.
Qed.

End Events.

(** ** Event-impact analysis *)

Section EventImpact.
Import Pandas EventChangeAnalyzer.

(** C6 (as the code has it): on a series with increasing dates and no
    price of zero, when the event mapping holds one event [a] whose dates
    at 30, 90 and 180 days on either side are in the series (so its date
    is inside the range) and one event [b] whose date is outside the
    range, in either order, and the t-test returns, the call does not
    raise; the table has the row of [a], fully populated, and no row for
    [b]: the event outside the range is omitted and a warning with its
    IndexError is logged; the t-test table has the entry of [a]. *)
Theorem analyze_events_omits_event_outside_range
  (L : Libs) (w : World) (a sa b sb : string) (da db : Timestamp)
  (key_events : list (string * string)) :
  sorted_index (price_data w) = true ->
  Spec.no_zero_price (price_data w) ->
  key_events = [(a, sa); (b, sb)] \/ key_events = [(b, sb); (a, sa)] ->
  a <> b ->
  to_datetime L sa = Returned da ->
  to_datetime L sb = Returned db ->
  Spec.horizons_present (price_data w) da = true ->
  Spec.outside_range (price_data w) db = true ->
  (forall x y, exists r, ttest_ind L x y = Returned r) ->
  Spec.outside_range (price_data w) da = false /\
  exists row table w',
    analyze_price_changes_around_events L key_events w
    = (Returned ([row], table), w') /\
    Event row = a /\ Date row = sa /\ Spec.fully_populated row /\
    (forall r, In r [row] -> Event r <> b) /\
    logger w' = logger w ++ [(WARNING, CouldNotProcessEvent b IndexError)] /\
    In a (map fst table).
Proof.
  intros _ _ Horder Hab Hda Hdb Hin Hout Htest.
  split; [now apply horizons_present_inside | ].
  set (warning := (WARNING, CouldNotProcessEvent b IndexError)).
  assert (Hparse : forall ev, In ev key_events ->
                     exists d, to_datetime L (snd ev) = Returned d).
  { intros ev Hev.
    destruct Horder as [-> | ->]; destruct Hev as [<- | [<- | []]]; simpl;
      eauto. }
  assert (Hloop : exists row,
            for_ key_events (analyze_event L) [] w
            = (Returned [row], with_log w warning) /\
            Event row = a /\ Date row = sa /\ Spec.fully_populated row).
  { destruct Horder as [-> | ->].
    - destruct (analyze_event_populated L a sa [] w da Hda Hin)
        as [row [Ha Hrow]].
      exists row. split; [ | exact Hrow]. simpl for_.
      rewrite (bind_returned _ _ _ _ _ Ha). simpl for_.
      rewrite (bind_returned _ _ _ _ _
                 (analyze_event_outside L b sb ([] ++ [row]) w db Hdb Hout)).
      reflexivity.
    - destruct (analyze_event_populated L a sa [] (with_log w warning) da
                  Hda Hin) as [row [Ha Hrow]].
      exists row. split; [ | exact Hrow]. simpl for_.
      rewrite (bind_returned _ _ _ _ _
                 (analyze_event_outside L b sb [] w db Hdb Hout)).
      simpl for_. rewrite (bind_returned _ _ _ _ _ Ha). reflexivity. }
  destruct Hloop as [row [Hloop [He [Hd Hf]]]].
  destruct (analyze_after_loop L key_events w [row] _ Hloop
              ltac:(discriminate) Hparse Htest) as [curves [table [Hrun Hkeys]]].
  exists row, table. eexists. split; [exact Hrun | ].
  repeat (split; [assumption | ]).
  split; [ | split; [reflexivity | ]].
  - intros r [<- | []]. congruence.
  - apply Hkeys; destruct Horder as [-> | ->]; simpl; tauto.
Qed.

Lemma demo_ttest_returns x y :
  exists r, ttest_ind Demo.libs x y = Returned r.
Proof.
  simpl. unfold Demo.ttest_ind.
  destruct (_ || _)%bool; eexists; reflexivity.
Qed.

(** C6 on the seven-point series with the events at day 200 and at day
    2000: the table has one row. *)
Lemma analyze_events_omits_event_outside_range_witness :
  exists row table w',
    analyze_price_changes_around_events Demo.libs Demo.events Demo.world
    = (Returned ([row], table), w') /\
    Event row = "A"%string /\ Spec.fully_populated row /\
    logger w' = [(WARNING, CouldNotProcessEvent "B" IndexError)].
Proof.
  destruct (analyze_events_omits_event_outside_range
              Demo.libs Demo.world "A" "200" "B" "2000" 200 2000 Demo.events)
    as [_ [row [table [w' [Hrun [He [_ [Hf [_ [Hlog _]]]]]]]]]].
  - reflexivity.
  - repeat (constructor; [discriminate | ]). constructor.
  - left. reflexivity.
  - discriminate.
  - reflexivity.
  - reflexivity.
  - reflexivity.
  - reflexivity.
  - exact demo_ttest_returns.
  - exists row, table, w'.
    split; [exact Hrun | split; [exact He | split; [exact Hf | exact Hlog]]].
Defined.

(** C6, the claim as stated fails: the event at day 2000 lies outside the
    series (days 20 to 380) and the returned table has a row for the
    event at day 200 only. *)
Lemma analyze_events_has_no_row_outside_range :
  Spec.outside_range Demo.series 2000 = true /\
  exists rows table,
    result (analyze_price_changes_around_events
              Demo.libs Demo.events Demo.world)
    = Returned (rows, table) /\
    map Event rows = ["A"%string] /\
    ~ In "B"%string (map Event rows).
Proof.
  split; [reflexivity | ].
  eexists. eexists. split; [vm_compute; reflexivity | ].
  split; [reflexivity | ].
  simpl. intros [H | []]. discriminate.
Qed.

(** C7 (what the code does): on a series with increasing dates, when the
    date strings parse and the t-test returns, as SciPy's does with NaN
    for samples too short, the comparison step logs nothing and enters
    every event in the table, skipping none; for a single event the entry
    is the test of the prices dated within the 180 days before the event
    against those within the 180 days after it. *)
Theorem statistical_analysis_enters_every_event
  (L : Libs) (w : World) (key_events : list (string * string)) :
  sorted_index (price_data w) = true ->
  (forall ev, In ev key_events ->
     exists d, to_datetime L (snd ev) = Returned d) ->
  (forall x y, exists r, ttest_ind L x y = Returned r) ->
  exists table,
    _perform_statistical_analysis L key_events w
    = (Returned table, with_shown w (StatFrame table)) /\
    (forall ev, In ev key_events -> In (fst ev) (map fst table)) /\
    (forall event s d,
       key_events = [(event, s)] -> to_datetime L s = Returned d ->
       exists r,
         ttest_ind L (Price (between (price_data w) (d - 180) d))
                     (Price (between (price_data w) d (d + 180)))
         = Returned r /\
         table = [(event, r)]).
Proof.
  intros _ Hparse Htest.
  destruct (statistical_analysis_run L w key_events Hparse Htest)
    as [table [Hrun Hkeys]].
  exists table. split; [exact Hrun | ]. split.
  - intros ev Hev. apply Hkeys, in_map, Hev.
  - intros event s d -> Hd.
    destruct (Htest (Price (between (price_data w) (d - 180) d))
                    (Price (between (price_data w) d (d + 180)))) as [r Hr].
    exists r. split; [exact Hr | ].
    unfold _perform_statistical_analysis in Hrun. simpl for_ in Hrun.
    rewrite (bind_returned _ _ _ _ _
               (bind_returned _ _ _ _ _
                  (compare_event_run L event s [] w d r Hd Hr))) in Hrun.
    unfold ret at 1 in Hrun.
    unfold bind, show, ret in Hrun. simpl in Hrun. congruence.
Qed.

(** C7 at the event of day 2000, outside the seven-point series: both
    windows are empty and the event is entered with NaN statistics. *)
Lemma statistical_analysis_enters_every_event_witness :
  _perform_statistical_analysis Demo.libs [("B", "2000")]%string Demo.world
  = (Returned [("B"%string, (NaN, NaN))],
     with_shown Demo.world (StatFrame [("B"%string, (NaN, NaN))])).
Proof.
  destruct (statistical_analysis_enters_every_event
              Demo.libs Demo.world [("B", "2000")]%string)
    as [table [Hrun [_ Hone]]].
  - reflexivity.
  - intros ev [<- | []]. exists 2000. reflexivity.
  - exact demo_ttest_returns.
  - destruct (Hone "B"%string "2000"%string 2000 eq_refl eq_refl)
      as [r [Hr Ht]].
    vm_compute in Hr. injection Hr as <-. subst table. exact Hrun.
Defined.

(** A batch whose only event lies outside the range records no row, and
    [melt] on the frame without columns raises KeyError to the caller. *)
Example analyze_events_all_outside_raises :
  result (analyze_price_changes_around_events
            Demo.libs [("B", "2000")]%string Demo.world)
  = Raised KeyError.
Proof. reflexivity. Qed.

(** A date string that does not parse is survived by the event loop and
    raised by the trend plot. *)
Example analyze_events_bad_date_raises :
  result (analyze_price_changes_around_events
            Demo.libs [("A", "200"); ("C", "soon")]%string Demo.world)
  = Raised ValueError.
Proof. reflexivity. Qed.

End EventImpact.

(** * Further properties of the analyzer *)

(** ** The window around an event *)

Section WindowContents.
Import Pandas EventChangeAnalyzer.

Lemma increasing_cons a l :
  (forall t, In t l -> a < t) -> increasing l = true ->
  increasing (a :: l) = true.
Proof.
  intros Hlt Hl. destruct l as [ | b r]; [reflexivity | ].
  simpl. apply andb_true_iff. split; [ | exact Hl].
  apply Z.ltb_lt, Hlt. now left.
Qed.

Lemma sorted_filter (f : Timestamp * Q -> bool) df :
  sorted_index df = true -> sorted_index (filter f df) = true.
Proof.
  unfold sorted_index.
  induction df as [ | [t p] r IH]; intros Hs; [reflexivity | ].
  simpl in Hs. pose proof (increasing_tail _ _ Hs) as Hr.
  simpl. destruct (f (t, p)); [ | now apply IH].
  simpl. apply increasing_cons; [ | now apply IH].
  intros t' Ht'. apply (increasing_head_lt _ _ Hs).
  apply in_map_iff in Ht'. destruct Ht' as [[t0 p0] [<- Hin]].
  apply filter_In in Hin. apply in_map. tauto.
Qed.

(** X1: the window around an event holds exactly the observations of the
    series dated from [days_before] days before the event to [days_after]
    days after it, both ends included; it keeps the dates increasing, is
    no longer than the series, and the call changes nothing. *)
Theorem get_prices_around_event_window
  (w : World) (event_date : Timestamp) (days_before days_after : Z) :
  exists window,
    _get_prices_around_event event_date days_before days_after w
    = (Returned window, w) /\
    (forall t p,
       In (t, p) window <->
       In (t, p) (price_data w) /\
       event_date - days_before <= t <= event_date + days_after) /\
    (sorted_index (price_data w) = true -> sorted_index window = true) /\
    (List.length window <= List.length (price_data w))%nat.
Proof.
  exists (between (price_data w) (event_date - days_before)
                  (event_date + days_after)).
  split; [reflexivity | ]. split; [ | split].
  - intros t p. unfold between. rewrite filter_In. simpl.
    rewrite andb_true_iff, !Z.leb_le. tauto.
  - apply sorted_filter.
  - apply filter_length_le.
Qed.

End WindowContents.

(** ** Compounded returns *)

Section CompoundedReturns.
Import Pandas EventChangeAnalyzer.

Lemma pct_change_from_simple r : forall prev,
  pct_change_from prev r = map Some (Derived.simple_returns prev r).
Proof.
  induction r as [ | x r IH]; intros prev; simpl; [reflexivity | ].
  now rewrite IH.
Qed.

Lemma cumprod_after_nan (l : list Q) :
  cumprod (add 1%Q (NaN :: map Some l))
  = NaN :: map Some (accumulate_from Qmult 1%Q (map (fun x => x + 1)%Q l)).
Proof.
  unfold cumprod, na_accum, add.
  cbn [map flift2 fillna NaN accumulate combine fst snd].
  rewrite !map_map. cbn [flift2 fillna].
  rewrite <- (map_map (fun x => (x + 1)%Q) Some).
  apply (f_equal (cons NaN)).
  apply restore_some. now rewrite accumulate_from_length.
Qed.

Lemma last_map_some (l : list Q) :
  l <> [] -> last (map Some l) NaN = Some (last l 0%Q).
Proof.
  induction l as [ | a r IH]; [congruence | ]. intros _.
  destruct r as [ | b r']; [reflexivity | ].
  change (last (map Some (a :: b :: r')) NaN)
    with (last (map Some (b :: r')) NaN).
  change (last (a :: b :: r') 0%Q) with (last (b :: r') 0%Q).
  apply IH. discriminate.
Qed.

Lemma nth_length_last {A} (l : list A) (d : A) :
  nth (List.length l - 1) l d = last l d.
Proof.
  induction l as [ | a r IH]; [reflexivity | ].
  destruct r as [ | b r']; [reflexivity | ].
  change (last (a :: b :: r') d) with (last (b :: r') d).
  rewrite <- IH. simpl. now rewrite Nat.sub_0_r.
Qed.

Lemma iloc_minus_one {A} (l : list A) (d : A) :
  l <> [] -> iloc l (-1) = Returned (last l d).
Proof.
  intros H. rewrite (iloc_last l d H). now rewrite nth_length_last.
Qed.

(** The running product of [1 + return] telescopes. *)
Lemma compounded_telescopes r : forall prev acc,
  r <> [] -> ~ (prev == 0)%Q ->
  Forall (fun p => ~ (p == 0)%Q) (removelast r) ->
  (last (accumulate_from Qmult acc
           (map (fun x => x + 1)%Q (Derived.simple_returns prev r))) 0%Q
   == acc * (last r 0%Q / prev))%Q.
Proof.
  induction r as [ | y r IH]; intros prev acc Hne Hprev Hnz; [congruence | ].
  destruct r as [ | y' r'].
  - cbn [Derived.simple_returns map accumulate_from last]. field. exact Hprev.
  - change (removelast (y :: y' :: r')) with (y :: removelast (y' :: r')) in Hnz.
    inversion Hnz as [ | ? ? Hy Hrest]; subst.
    change (Derived.simple_returns prev (y :: y' :: r'))
      with ((y / prev - 1)%Q :: Derived.simple_returns y (y' :: r')).
    cbn [map accumulate_from].
    change (last (y :: y' :: r') 0%Q) with (last (y' :: r') 0%Q).
    set (acc' := (acc * (y / prev - 1 + 1))%Q).
    assert (Hl : forall a l, l <> [] -> last (a :: l) 0%Q = last l 0%Q).
    { intros a l Hl. destruct l; [congruence | reflexivity]. }
    rewrite Hl.
    2:{ cbn [Derived.simple_returns map accumulate_from]. discriminate. }
    rewrite (IH y acc' ltac:(discriminate) Hy Hrest).
    unfold acc'. field. split; assumption.
Qed.

(** X2: the cumulative return the event loop computes on a window of
    prices raises IndexError on the empty window, is NaN on a window of
    one price, and on a longer window whose prices but the last are not
    zero it is the total change [last / first - 1]. *)
Theorem cumulative_return_is_total_change (s : list Q) :
  match s with
  | [] => cumulative_return s = Raised IndexError
  | [p] => cumulative_return s = Returned NaN
  | first :: _ =>
      Forall (fun p => ~ (p == 0)%Q) (removelast s) ->
      exists x,
        cumulative_return s = Returned (Some x) /\
        (x == last s 0%Q / first - 1)%Q
  end.
Proof.
  destruct s as [ | p0 [ | p1 r]]; [reflexivity | reflexivity | ].
  intros Hnz. unfold cumulative_return.
  change (pct_change (p0 :: p1 :: r)) with (NaN :: pct_change_from p0 (p1 :: r)).
  rewrite pct_change_from_simple, cumprod_after_nan.
  rewrite (iloc_minus_one _ NaN) by discriminate.
  set (accs := accumulate_from Qmult 1%Q
                 (map (fun x => (x + 1)%Q)
                      (Derived.simple_returns p0 (p1 :: r)))).
  assert (Hacc : accs <> []).
  { unfold accs. cbn [Derived.simple_returns map accumulate_from]. discriminate. }
  replace (last (NaN :: map Some accs) NaN) with (last (map Some accs) NaN).
  2:{ destruct accs; [congruence | reflexivity]. }
  rewrite (last_map_some _ Hacc). cbn [flift2].
  eexists. split; [reflexivity | ].
  change (removelast (p0 :: p1 :: r)) with (p0 :: removelast (p1 :: r)) in Hnz.
  inversion Hnz as [ | ? ? H0 Hrest]; subst.
  unfold accs.
  rewrite (compounded_telescopes (p1 :: r) p0 1%Q ltac:(discriminate) H0 Hrest).
  change (last (p0 :: p1 :: r) 0%Q) with (last (p1 :: r) 0%Q).
  field. exact H0.
Qed.

(** X2 on the prices 50, 52, 55, 60 of the series up to day 200. *)
Lemma cumulative_return_is_total_change_witness :
  exists x,
    cumulative_return [50; 52; 55; 60]%Q = Returned (Some x) /\
    (x == 60 / 50 - 1)%Q.
Proof.
  apply (cumulative_return_is_total_change [50; 52; 55; 60]%Q).
  repeat constructor; discriminate.
Defined.

End CompoundedReturns.

(** ** The shape of the CUSUM *)

Section CusumShape.
Import Pandas EventChangeAnalyzer.

Lemma Qsum_deviations l m :
  (Qsum (map (fun p => p - m) l)
   == Qsum l - inject_Z (Z.of_nat (List.length l)) * m)%Q.
Proof.
  induction l as [ | a r IH].
  - simpl. ring.
  - cbn [map Qsum fold_right List.length]. fold (Qsum (map (fun p => p - m)%Q r)).
    fold (Qsum r). rewrite IH, Nat2Z.inj_succ. unfold Z.succ.
    rewrite inject_Z_plus. ring.
Qed.

Lemma Qsum_firstn_succ l : forall k,
  (k < List.length l)%nat ->
  (Qsum (firstn (S k) l) == Qsum (firstn k l) + nth k l 0)%Q.
Proof.
  induction l as [ | a r IH]; intros k Hk; simpl in Hk; [lia | ].
  destruct k as [ | k].
  - simpl. ring.
  - change (firstn (S (S k)) (a :: r)) with (a :: firstn (S k) r).
    change (firstn (S k) (a :: r)) with (a :: firstn k r).
    cbn [Qsum fold_right nth]. fold (Qsum (firstn (S k) r)).
    fold (Qsum (firstn k r)). rewrite IH by lia. ring.
Qed.

(** The sequence the method plots, entry by entry. *)
Lemma cusum_entries df m :
  mean (Price df) = Some m ->
  cumsum (map (fun p => flift2 Qminus (Some p) (mean (Price df))) (Price df))
  = map Some (accumulate Qplus (map (fun p => p - m)%Q (Price df))).
Proof.
  intros Hm. rewrite Hm.
  replace (map (fun p => flift2 Qminus (Some p) (Some m)) (Price df))
    with (map Some (map (fun p => p - m)%Q (Price df)))
    by (now rewrite map_map).
  apply na_accum_some.
Qed.

Lemma plotted_cusum df lg sc cusum :
  screen (after (calculate_cusum (mkWorld df (mean (Price df)) lg sc)))
  = sc ++ [CusumFigure (index df) cusum] ->
  cusum = cumsum (map (fun p => flift2 Qminus (Some p) (mean (Price df)))
                      (Price df)).
Proof.
  intros H. change (screen _) with
    (sc ++ [CusumFigure (index df)
              (cumsum (map (fun p => flift2 Qminus (Some p) (mean (Price df)))
                           (Price df)))]) in H.
  apply app_inv_head in H. now injection H as <-.
Qed.

(** X3: in the sequence the CUSUM operation plots, the step from one
    entry to the next is the deviation of the next price from the mean:
    the CUSUM does not fall exactly where the price is at or above the
    mean. *)
Theorem cusum_rises_where_price_is_above_mean
  (df : DataFrame) (lg : list (level * message)) (sc : list shown)
  (cusum : list float) (i : nat) (m c c' p : Q) :
  screen (after (calculate_cusum (mkWorld df (mean (Price df)) lg sc)))
  = sc ++ [CusumFigure (index df) cusum] ->
  mean (Price df) = Some m ->
  nth_error cusum i = Some (Some c) ->
  nth_error cusum (S i) = Some (Some c') ->
  nth_error (Price df) (S i) = Some p ->
  (c' - c == p - m)%Q /\ ((c <= c')%Q <-> (m <= p)%Q).
Proof.
  intros Hplot Hm Hc Hc' Hp.
  apply plotted_cusum in Hplot. subst cusum.
  rewrite (cusum_entries df m Hm) in Hc, Hc'.
  rewrite nth_error_map in Hc, Hc'.
  destruct (nth_error _ i) as [a | ] eqn:Ea in Hc; [ | discriminate].
  destruct (nth_error _ (S i)) as [a' | ] eqn:Ea' in Hc'; [ | discriminate].
  injection Hc as ->. injection Hc' as ->.
  apply accumulate_nth in Ea. apply accumulate_nth in Ea'.
  assert (Hi : (S i < List.length (map (fun p => p - m)%Q (Price df)))%nat).
  { rewrite length_map. apply nth_error_Some. congruence. }
  rewrite (Qsum_firstn_succ _ _ Hi) in Ea'.
  assert (Hn : nth (S i) (map (fun p => (p - m)%Q) (Price df)) 0%Q = (p - m)%Q).
  { apply nth_error_nth. rewrite nth_error_map, Hp. reflexivity. }
  rewrite Hn in Ea'.
  assert (Hd : (c' - c == p - m)%Q) by (rewrite Ea, Ea'; ring).
  split; [exact Hd | ].
  rewrite (Qle_minus_iff c c'), (Qle_minus_iff m p).
  assert (He : (c' + - c == p + - m)%Q).
  { unfold Qminus in Hd. exact Hd. }
  now rewrite He.
Qed.

(** X3 on the seven-point series: from day 20 to day 110 the CUSUM falls
    by the [52 - 416/7] the second price lies under the mean. *)
Lemma cusum_rises_where_price_is_above_mean_witness :
  ((-826 # 49) - (-66 # 7) == 52 - (416 # 7))%Q /\
  ((-66 # 7 <= -826 # 49)%Q <-> (416 # 7 <= 52)%Q).
Proof.
  apply (cusum_rises_where_price_is_above_mean
           Demo.series [] []
           [Some (-66 # 7); Some (-826 # 49); Some (-7301 # 343);
            Some (-49735 # 2401); Some (-237699 # 16807);
            Some (-1243718 # 117649); Some (0 # 823543)]%Q
           0%nat (416 # 7)%Q (-66 # 7)%Q (-826 # 49)%Q 52%Q);
    reflexivity.
Defined.

(** X4: on a non-empty series with its stored mean, the sequence the
    CUSUM operation plots ends at zero (in exact arithmetic): the
    deviations from the mean cancel. *)
Theorem cusum_ends_at_zero
  (df : DataFrame) (lg : list (level * message)) (sc : list shown) :
  df <> [] ->
  exists cusum c,
    screen (after (calculate_cusum (mkWorld df (mean (Price df)) lg sc)))
    = sc ++ [CusumFigure (index df) cusum] /\
    last cusum NaN = Some c /\
    (c == 0)%Q.
Proof.
  intros Hne.
  assert (Hm : exists m, mean (Price df) = Some m
                         /\ (m == Qsum (Price df)
                                  / inject_Z (Z.of_nat (List.length (Price df))))%Q).
  { destruct df as [ | r0 r]; [congruence | ]. simpl. eexists.
    split; reflexivity. }
  destruct Hm as [m [Hm Hmean]].
  set (devs := map (fun p => p - m)%Q (Price df)).
  assert (Hlen : List.length (accumulate Qplus devs) = List.length (Price df)).
  { unfold devs. now rewrite accumulate_length, length_map. }
  assert (Hpos : (0 < List.length (Price df))%nat).
  { unfold Price. rewrite length_map. destruct df; [congruence | simpl; lia]. }
  exists (map Some (accumulate Qplus devs)), (last (accumulate Qplus devs) 0%Q).
  split; [ | split].
  - change (screen _) with
      (sc ++ [CusumFigure (index df)
                (cumsum (map (fun p => flift2 Qminus (Some p) (mean (Price df)))
                             (Price df)))]).
    now rewrite (cusum_entries df m Hm).
  - apply last_map_some. intros H. rewrite H in Hlen. simpl in Hlen. lia.
  - rewrite <- nth_length_last.
    assert (Hn : nth_error (accumulate Qplus devs)
                           (List.length (accumulate Qplus devs) - 1)
                 = Some (nth (List.length (accumulate Qplus devs) - 1)
                             (accumulate Qplus devs) 0%Q)).
    { apply nth_error_nth'. lia. }
    apply accumulate_nth in Hn. rewrite Hn.
    replace (S (List.length (accumulate Qplus devs) - 1))
      with (List.length devs)
      by (rewrite Hlen; unfold devs; rewrite length_map; lia).
    rewrite firstn_all. unfold devs. rewrite Qsum_deviations, Hmean.
    field. intros H0. unfold Qeq in H0. simpl in H0. lia.
Qed.

(** X4 on the seven-point series. *)
Lemma cusum_ends_at_zero_witness :
  exists cusum c,
    screen (after (calculate_cusum Demo.world))
    = [CusumFigure (index Demo.series) cusum] /\
    last cusum NaN = Some c /\ (c == 0)%Q.
Proof.
  apply (cusum_ends_at_zero Demo.series [] []). discriminate.
Defined.

End CusumShape.

(** ** Which events reach the tables *)

Section EventAccounting.
Import Pandas EventChangeAnalyzer.

Lemma for_app {X S} (body : X -> S -> M S) (xs ys : list X) : forall s w,
  for_ (xs ++ ys) body s w = bind (for_ xs body s) (for_ ys body) w.
Proof.
  induction xs as [ | x r IH]; intros s w; [reflexivity | ].
  simpl. unfold bind.
  destruct (body x s w) as [[s' | e] w']; [ | reflexivity].
  rewrite IH. reflexivity.
Qed.

Lemma with_logs_nil w : Derived.with_logs w [] = w.
Proof. destruct w. unfold Derived.with_logs. simpl. now rewrite app_nil_r. Qed.

Lemma with_logs_cons w r rs :
  Derived.with_logs (with_log w r) rs = Derived.with_logs w (r :: rs).
Proof.
  unfold Derived.with_logs, with_log. simpl. now rewrite <- app_assoc.
Qed.

(** One turn of the event loop: a row for an event with data on both
    sides of its date, a warning for any other. *)
Lemma analyze_event_cases L ev results w :
  if Derived.processable L (price_data w) ev
  then exists row,
         analyze_event L ev results w = (Returned (results ++ [row]), w) /\
         Event row = fst ev /\ Date row = snd ev
  else exists e,
         analyze_event L ev results w
         = (Returned results,
            with_log w (WARNING, CouldNotProcessEvent (fst ev) e)).
Proof.
  destruct ev as [event s]. unfold Derived.processable. simpl fst. simpl snd.
  destruct (to_datetime L s) as [d | e] eqn:Hd.
  - rewrite (analyze_event_run _ _ _ _ _ _ Hd). cbv zeta.
    rewrite loc_upto_between by lia. rewrite loc_from_between by lia.
    destruct (between (price_data w) (d - 180) d) as [ | r1 l1] eqn:E1.
    + simpl. exists IndexError. reflexivity.
    + destruct (cumulative_return_total (Price (r1 :: l1))) as [cb ->];
        [discriminate | ].
      destruct (between (price_data w) d (d + 180)) as [ | r2 l2] eqn:E2.
      * simpl. exists IndexError. reflexivity.
      * destruct (cumulative_return_total (Price (r2 :: l2))) as [ca ->];
          [discriminate | ].
        simpl. eexists. repeat split.
  - exists e. unfold analyze_event, try_except, bind, lift. simpl.
    rewrite Hd. reflexivity.
Qed.

(** The event loop as a whole. *)
Lemma event_loop_rows L evs : forall acc w,
  exists rows warnings,
    for_ evs (analyze_event L) acc w
    = (Returned (acc ++ rows), Derived.with_logs w warnings) /\
    map (fun r => (Event r, Date r)) rows
    = filter (Derived.processable L (price_data w)) evs /\
    map Derived.warned_event warnings
    = map (fun ev => Some (fst ev))
          (filter (fun ev => negb (Derived.processable L (price_data w) ev))
                  evs).
Proof.
  induction evs as [ | ev r IH]; intros acc w.
  - exists [], []. simpl. now rewrite app_nil_r, with_logs_nil.
  - pose proof (analyze_event_cases L ev acc w) as Hev.
    destruct (Derived.processable L (price_data w) ev) eqn:Hp.
    + destruct Hev as [row [Hrun [He Hd]]].
      destruct (IH (acc ++ [row]) w) as [rows [ws [Hloop [Hrows Hws]]]].
      exists (row :: rows), ws. split; [ | split].
      * simpl for_. rewrite (bind_returned _ _ _ _ _ Hrun), Hloop.
        now rewrite <- app_assoc.
      * simpl. rewrite Hp, He, Hd, Hrows. now destruct ev.
      * simpl. rewrite Hp. exact Hws.
    + destruct Hev as [e Hrun].
      destruct (IH acc (with_log w (WARNING, CouldNotProcessEvent (fst ev) e)))
        as [rows [ws [Hloop [Hrows Hws]]]].
      exists rows, ((WARNING, CouldNotProcessEvent (fst ev) e) :: ws).
      split; [ | split].
      * simpl for_. rewrite (bind_returned _ _ _ _ _ Hrun), Hloop.
        now rewrite with_logs_cons.
      * simpl. rewrite Hp. exact Hrows.
      * simpl. rewrite Hp. simpl in *. now rewrite Hws.
Qed.

Lemma plot_event_curve_run L b a ev acc w :
  plot_event_curve L b a ev acc w
  = match to_datetime L (snd ev) with
    | Returned d =>
        (Returned (acc ++ [(fst ev, d, between (price_data w) (d - b) (d + a))]),
         w)
    | Raised e => (Raised e, w)
    end.
Proof.
  unfold plot_event_curve, bind, lift, _get_prices_around_event,
    self_price_data, ret, timedelta.
  destruct (to_datetime L (snd ev)); reflexivity.
Qed.

Lemma plot_loop_returns_parsed L b a evs : forall acc w curves w',
  for_ evs (plot_event_curve L b a) acc w = (Returned curves, w') ->
  forall ev, In ev evs -> exists d, to_datetime L (snd ev) = Returned d.
Proof.
  induction evs as [ | ev0 r IH]; intros acc w curves w' H ev Hin;
    [destruct Hin | ].
  simpl for_ in H. unfold bind at 1 in H.
  rewrite plot_event_curve_run in H.
  destruct (to_datetime L (snd ev0)) as [d | e] eqn:Hd; [ | discriminate].
  destruct Hin as [<- | Hin]; [eauto | ].
  eapply IH; eassumption.
Qed.

Lemma plot_loop_run L b a evs : forall acc w,
  (forall ev, In ev evs -> exists d, to_datetime L (snd ev) = Returned d) ->
  exists curves, for_ evs (plot_event_curve L b a) acc w = (Returned curves, w).
Proof.
  induction evs as [ | ev r IH]; intros acc w Hparse.
  - exists acc. reflexivity.
  - destruct (Hparse ev (or_introl eq_refl)) as [d Hd].
    simpl for_. unfold bind at 1. rewrite plot_event_curve_run, Hd.
    apply IH. intros ev' H. apply Hparse. now right.
Qed.

(** X5: on a series with strictly increasing dates, when the event
    analysis returns its tables, the rows of the event-impact table are,
    in the order of the mapping, exactly the events whose date parses and
    which have an observation within the 180 days up to the date and one
    within the 180 days from it; there is a row at least, and every date
    string of the mapping parsed. *)
Theorem analyze_events_rows_are_the_processable_events
  (L : Libs) (key_events : list (string * string)) (w w' : World)
  (rows : list Row) (table : StatTable) :
  sorted_index (price_data w) = true ->
  analyze_price_changes_around_events L key_events w
  = (Returned (rows, table), w') ->
  map (fun r => (Event r, Date r)) rows
  = filter (Derived.processable L (price_data w)) key_events /\
  rows <> [] /\
  (forall ev, In ev key_events ->
     exists d, to_datetime L (snd ev) = Returned d).
Proof.
  intros _ H.
  destruct (event_loop_rows L key_events [] w)
    as [rows0 [ws [Hloop [Hrows _]]]].
  simpl app in Hloop.
  unfold analyze_price_changes_around_events in H.
  rewrite (bind_returned _ _ _ _ _ Hloop) in H.
  unfold bind at 1 in H. unfold _plot_price_trends_around_events in H.
  unfold bind at 1 in H.
  destruct (for_ key_events (plot_event_curve L 180 180) [] _)
    as [[curves | e] w1] eqn:Hplot; [ | discriminate].
  pose proof (plot_loop_returns_parsed _ _ _ _ _ _ _ _ Hplot) as Hparse.
  unfold show at 1 in H. unfold bind at 1 in H.
  unfold _plot_percentage_changes_and_cumulative_returns in H.
  unfold bind at 1, lift at 1 in H.
  destruct rows0 as [ | row0 rest].
  - simpl in H. discriminate.
  - cbn [melt] in H. unfold show at 1 in H. unfold bind at 1 in H.
    destruct (_perform_statistical_analysis L key_events _)
      as [[t | e] w2]; [ | discriminate].
    unfold ret in H. injection H as <- _ _.
    split; [exact Hrows | ]. split; [discriminate | exact Hparse].
Qed.

(** X5 on the seven-point series and the events of day 200 and day
    2000. *)
Lemma analyze_events_rows_are_the_processable_events_witness :
  exists rows table,
    result (analyze_price_changes_around_events
              Demo.libs Demo.events Demo.world)
    = Returned (rows, table) /\
    map (fun r => (Event r, Date r)) rows = [("A", "200")]%string.
Proof.
  destruct (analyze_price_changes_around_events
              Demo.libs Demo.events Demo.world) as [[[rows table] | e] w']
    eqn:Hrun; [ | vm_compute in Hrun; discriminate].
  exists rows, table. split; [reflexivity | ].
  exact (proj1 (analyze_events_rows_are_the_processable_events
                  Demo.libs Demo.events Demo.world w' rows table
                  eq_refl Hrun)).
Defined.

(** X6: when every date string parses and no event has observations on
    both sides of its date (the empty mapping included), the event
    analysis does not return empty tables: the frame without rows has no
    column, [melt] raises KeyError, and the caller gets that exception
    after the trend figure was shown. *)
Theorem analyze_events_without_rows_raises_key_error
  (L : Libs) (key_events : list (string * string)) (w : World) :
  (forall ev, In ev key_events ->
     exists d, to_datetime L (snd ev) = Returned d) ->
  filter (Derived.processable L (price_data w)) key_events = [] ->
  exists curves,
    result (analyze_price_changes_around_events L key_events w)
    = Raised KeyError /\
    screen (after (analyze_price_changes_around_events L key_events w))
    = screen w ++ [PriceTrendsFigure curves].
Proof.
  intros Hparse Hnone.
  destruct (event_loop_rows L key_events [] w)
    as [rows [ws [Hloop [Hrows _]]]].
  rewrite Hnone in Hrows. apply map_eq_nil in Hrows. subst rows.
  simpl app in Hloop.
  destruct (plot_trends_run L key_events 180 180 (Derived.with_logs w ws) Hparse)
    as [curves Hc].
  exists curves.
  unfold analyze_price_changes_around_events.
  rewrite (bind_returned _ _ _ _ _ Hloop).
  rewrite (bind_returned _ _ _ _ _ Hc).
  split; reflexivity.
Qed.

(** X6 on the seven-point series and the event of day 2000 alone. *)
Lemma analyze_events_without_rows_raises_key_error_witness :
  exists curves,
    result (analyze_price_changes_around_events
              Demo.libs [("B", "2000")]%string Demo.world)
    = Raised KeyError /\
    screen (after (analyze_price_changes_around_events
                     Demo.libs [("B", "2000")]%string Demo.world))
    = screen Demo.world ++ [PriceTrendsFigure curves].
Proof.
  apply (analyze_events_without_rows_raises_key_error
           Demo.libs [("B", "2000")]%string Demo.world).
  - intros ev [<- | []]. exists 2000. reflexivity.
  - reflexivity.
Defined.

(** X7: a date string that does not parse aborts the whole event
    analysis: the event loop catches the parser's exception and warns,
    but the trend plot parses the string again outside any handler, and
    the caller gets the exception of the first such event. *)
Theorem analyze_events_unparsable_date_aborts
  (L : Libs) (pre post : list (string * string)) (ev : string * string)
  (e : exn) (w : World) :
  (forall ev', In ev' pre -> exists d, to_datetime L (snd ev') = Returned d) ->
  to_datetime L (snd ev) = Raised e ->
  result (analyze_price_changes_around_events L (pre ++ ev :: post) w)
  = Raised e /\
  screen (after (analyze_price_changes_around_events L (pre ++ ev :: post) w))
  = screen w.
Proof.
  intros Hpre Hev.
  destruct (event_loop_rows L (pre ++ ev :: post) [] w)
    as [rows [ws [Hloop _]]].
  simpl app in Hloop.
  unfold analyze_price_changes_around_events.
  rewrite (bind_returned _ _ _ _ _ Hloop).
  assert (Hplot : _plot_price_trends_around_events L (pre ++ ev :: post)
                    180 180 (Derived.with_logs w ws)
                  = (Raised e, Derived.with_logs w ws)).
  { unfold _plot_price_trends_around_events.
    apply bind_raised. rewrite for_app.
    destruct (plot_loop_run L 180 180 pre [] (Derived.with_logs w ws) Hpre)
      as [curves Hc].
    rewrite (bind_returned _ _ _ _ _ Hc).
    simpl for_. apply bind_raised.
    rewrite plot_event_curve_run, Hev. reflexivity. }
  rewrite (bind_raised _ _ _ _ _ Hplot). split; reflexivity.
Qed.

(** X7 on the seven-point series: the second date is not a date. *)
Lemma analyze_events_unparsable_date_aborts_witness :
  result (analyze_price_changes_around_events
            Demo.libs
            ([("A", "200")]%string ++ [("C", "soon")]%string)%list
            Demo.world)
  = Raised ValueError.
Proof.
  apply (analyze_events_unparsable_date_aborts
           Demo.libs [("A", "200")]%string [] ("C", "soon")%string
           ValueError Demo.world).
  - intros ev' [<- | []]. exists 200. reflexivity.
  - reflexivity.
Defined.

End EventAccounting.

(** ** The t-test table *)

Section StatTableOrder.
Import Pandas EventChangeAnalyzer.

(** One turn of the comparison loop, whatever the libraries do. *)
Lemma compare_event_cases L ev results w :
  compare_event L ev results w
  = match Derived.comparison L (price_data w) ev with
    | Returned r => (Returned (dict_set results (fst ev) r), w)
    | Raised e =>
        if is_KeyError e
        then (Returned results,
              with_log w (WARNING, SkippingEvent (fst ev) (snd ev)))
        else (Raised e, w)
    end.
Proof.
  unfold compare_event, Derived.comparison, try_except, bind, lift,
    _get_prices_around_event, self_price_data, ret, timedelta, log.
  destruct (to_datetime L (snd ev)) as [d | e]; simpl.
  - rewrite loc_upto_between by lia. rewrite loc_from_between by lia.
    destruct (ttest_ind L _ _) as [r | e]; [reflexivity | ].
    destruct (is_KeyError e); reflexivity.
  - destruct (is_KeyError e); reflexivity.
Qed.

Lemma dict_set_fresh {V} (d : list (string * V)) k v :
  ~ In k (map fst d) -> dict_set d k v = d ++ [(k, v)].
Proof.
  induction d as [ | [k0 v0] r IH]; intros H; simpl; [reflexivity | ].
  simpl in H. destruct (String.eqb_spec k0 k) as [-> | _]; [tauto | ].
  rewrite IH; [reflexivity | tauto].
Qed.

Lemma compare_loop_table L evs : forall acc w,
  NoDup (map fst evs) ->
  (forall ev, In ev evs -> ~ In (fst ev) (map fst acc)) ->
  (forall ev e, In ev evs ->
     Derived.comparison L (price_data w) ev = Raised e -> e = KeyError) ->
  for_ evs (compare_event L) acc w
  = (Returned (acc ++ Derived.entries L (price_data w) evs),
     Derived.with_logs w (Derived.skips L (price_data w) evs)).
Proof.
  induction evs as [ | ev r IH]; intros acc w Hnd Hfresh Hkey.
  - simpl. now rewrite app_nil_r, with_logs_nil.
  - simpl in Hnd. inversion Hnd as [ | ? ? Hnotin Hnd']; subst.
    simpl for_. unfold bind at 1. rewrite compare_event_cases.
    unfold Derived.entries, Derived.skips. cbn [flat_map].
    fold (Derived.entries L (price_data w) r).
    fold (Derived.skips L (price_data w) r).
    destruct (Derived.comparison L (price_data w) ev) as [t | e] eqn:Hc.
    + rewrite (dict_set_fresh acc (fst ev) t (Hfresh ev (or_introl eq_refl))).
      rewrite IH.
      * now rewrite <- app_assoc.
      * exact Hnd'.
      * intros ev' Hin Hk. rewrite map_app in Hk. apply in_app_or in Hk.
        destruct Hk as [Hk | [Hk | []]].
        -- exact (Hfresh ev' (or_intror Hin) Hk).
        -- simpl in Hk. apply Hnotin. rewrite Hk. now apply in_map.
      * intros ev' e Hin. apply Hkey. now right.
    + rewrite (Hkey ev e (or_introl eq_refl) Hc). cbn [is_KeyError].
      rewrite (IH acc (with_log w (WARNING, SkippingEvent (fst ev) (snd ev)))).
      * cbn [app]. now rewrite with_logs_cons.
      * exact Hnd'.
      * intros ev' Hin. apply Hfresh. now right.
      * intros ev' e' Hin. apply Hkey. now right.
Qed.

(** X8: on a series with strictly increasing dates, for a mapping with
    distinct event names in which no comparison raises anything but
    KeyError, the t-test table holds, in the mapping's order, one entry
    for each event whose date parsed and whose test returned, with the
    test's answer on the prices of the 180 days before and of the 180
    days after; every other event is skipped with one warning, and the
    table is printed and returned. *)
Theorem statistical_table_follows_the_mapping
  (L : Libs) (key_events : list (string * string)) (w : World) :
  sorted_index (price_data w) = true ->
  NoDup (map fst key_events) ->
  (forall ev e, In ev key_events ->
     Derived.comparison L (price_data w) ev = Raised e -> e = KeyError) ->
  _perform_statistical_analysis L key_events w
  = (Returned (Derived.entries L (price_data w) key_events),
     with_shown
       (Derived.with_logs w (Derived.skips L (price_data w) key_events))
       (StatFrame (Derived.entries L (price_data w) key_events))).
Proof.
  intros _ Hnd Hkey. unfold _perform_statistical_analysis.
  rewrite (bind_returned _ _ _ _ _
             (compare_loop_table L key_events [] w Hnd
                (fun _ _ H => H) Hkey)).
  reflexivity.
Qed.

(** X8 on the seven-point series and the events of day 200 and day
    2000. *)
Lemma statistical_table_follows_the_mapping_witness :
  map fst (Derived.entries Demo.libs Demo.series Demo.events)
  = ["A"; "B"]%string /\
  result (_perform_statistical_analysis Demo.libs Demo.events Demo.world)
  = Returned (Derived.entries Demo.libs Demo.series Demo.events).
Proof.
  split; [reflexivity | ].
  rewrite (statistical_table_follows_the_mapping
             Demo.libs Demo.events Demo.world).
  - reflexivity.
  - reflexivity.
  - repeat constructor; simpl; intuition discriminate.
  - intros ev e [<- | [<- | []]] H; vm_compute in H; discriminate.
Defined.

Lemma compare_loop_survives L evs : forall acc w,
  (forall ev e, In ev evs ->
     Derived.comparison L (price_data w) ev = Raised e -> e = KeyError) ->
  exists table ws,
    for_ evs (compare_event L) acc w
    = (Returned table, Derived.with_logs w ws).
Proof.
  induction evs as [ | ev r IH]; intros acc w Hkey.
  - exists acc, []. simpl. now rewrite with_logs_nil.
  - simpl for_. unfold bind at 1. rewrite compare_event_cases.
    destruct (Derived.comparison L (price_data w) ev) as [t | e] eqn:Hc.
    + apply IH. intros ev' e' Hin. apply Hkey. now right.
    + rewrite (Hkey ev e (or_introl eq_refl) Hc). cbn [is_KeyError].
      destruct (IH acc (with_log w (WARNING, SkippingEvent (fst ev) (snd ev))))
        as [table [ws H]].
      { intros ev' e' Hin. apply Hkey. now right. }
      exists table, ((WARNING, SkippingEvent (fst ev) (snd ev)) :: ws).
      now rewrite H, with_logs_cons.
Qed.

(** X9: the comparison step survives KeyError only.  When the date parser
    or the t-test raises any other exception for an event, after events
    that were entered or skipped, the step raises that exception to its
    caller: no table is printed or returned, for this event or any
    other. *)
Theorem statistical_analysis_aborts_on_other_errors
  (L : Libs) (pre post : list (string * string)) (ev : string * string)
  (e : exn) (w : World) :
  (forall ev' e', In ev' pre ->
     Derived.comparison L (price_data w) ev' = Raised e' -> e' = KeyError) ->
  Derived.comparison L (price_data w) ev = Raised e ->
  is_KeyError e = false ->
  result (_perform_statistical_analysis L (pre ++ ev :: post) w) = Raised e /\
  screen (after (_perform_statistical_analysis L (pre ++ ev :: post) w))
  = screen w.
Proof.
  intros Hpre Hev Hne.
  destruct (compare_loop_survives L pre [] w Hpre) as [table [ws Hloop]].
  assert (Hrun : for_ (pre ++ ev :: post) (compare_event L) [] w
                 = (Raised e, Derived.with_logs w ws)).
  { rewrite for_app, (bind_returned _ _ _ _ _ Hloop).
    simpl for_. apply bind_raised. rewrite compare_event_cases.
    change (price_data (Derived.with_logs w ws)) with (price_data w).
    now rewrite Hev, Hne. }
  unfold _perform_statistical_analysis.
  rewrite (bind_raised _ _ _ _ _ Hrun). split; reflexivity.
Qed.

(** X9 on the seven-point series: the second date is not a date, and the
    parser's ValueError is raised. *)
Lemma statistical_analysis_aborts_on_other_errors_witness :
  result (_perform_statistical_analysis Demo.libs
            ([("A", "200")]%string ++ [("C", "soon")]%string)%list
            Demo.world)
  = Raised ValueError.
Proof.
  apply (statistical_analysis_aborts_on_other_errors
           Demo.libs [("A", "200")]%string [] ("C", "soon")%string
           ValueError Demo.world).
  - intros ev' e' [<- | []] H. vm_compute in H. discriminate.
  - reflexivity.
  - reflexivity.
Defined.

End StatTableOrder.

(** ** Positions handed back by the libraries *)

Section Positions.
Import Pandas EventChangeAnalyzer.

Lemma iloc_member {A} (l : list A) (i : Z) (a : A) :
  iloc l i = Returned a -> In a l.
Proof.
  unfold iloc.
  destruct ((0 <=? _) && (_ <? _))%bool; [ | discriminate].
  destruct (nth_error l _) as [x | ] eqn:E; [ | discriminate].
  intros H. injection H as <-. eapply nth_error_In. exact E.
Qed.

Lemma iloc_raises_index_error {A} (l : list A) (i : Z) (e : exn) :
  iloc l i = Raised e -> e = IndexError.
Proof.
  unfold iloc.
  destruct ((0 <=? _) && (_ <? _))%bool.
  - destruct (nth_error l _); [discriminate | now intros H; injection H].
  - now intros H; injection H.
Qed.

Lemma iloc_in_bounds {A} (l : list A) (i : Z) :
  Derived.in_bounds (List.length l) i -> exists a, iloc l i = Returned a.
Proof.
  unfold Derived.in_bounds, iloc. intros Hi.
  set (n := Z.of_nat (List.length l)) in *.
  set (j := if i <? 0 then n + i else i).
  assert (Hj : 0 <= j < n).
  { unfold j. destruct (Z.ltb_spec i 0); lia. }
  destruct (Z.leb_spec 0 j); [ | lia].
  destruct (Z.ltb_spec j n); [ | lia]. simpl.
  destruct (nth_error l (Z.to_nat j)) as [a | ] eqn:E; [eauto | ].
  apply nth_error_None in E. lia.
Qed.

Lemma iloc_out_of_bounds {A} (l : list A) (i : Z) :
  ~ Derived.in_bounds (List.length l) i -> iloc l i = Raised IndexError.
Proof.
  unfold Derived.in_bounds, iloc. intros Hi.
  set (n := Z.of_nat (List.length l)) in *.
  destruct (Z.ltb_spec i 0).
  - destruct (Z.leb_spec 0 (n + i)); [lia | reflexivity].
  - destruct (Z.leb_spec 0 i); [ | lia].
    destruct (Z.ltb_spec i n); [lia | reflexivity].
Qed.

Lemma comprehension_all {X Y} (f : X -> outcome Y) l :
  (forall x, In x l -> exists y, f x = Returned y) ->
  exists ys, comprehension f l = Returned ys /\
             List.length ys = List.length l.
Proof.
  induction l as [ | x r IH]; intros H.
  - exists []. split; reflexivity.
  - destruct (H x (or_introl eq_refl)) as [y Hy].
    destruct IH as [ys [Hys Hlen]]; [intros x' Hx'; apply H; now right | ].
    exists (y :: ys). simpl. rewrite Hy, Hys. split; [reflexivity | ].
    simpl. now rewrite Hlen.
Qed.

Lemma comprehension_some_raise {X Y} (f : X -> outcome Y) l e0 :
  (forall x e, f x = Raised e -> e = e0) ->
  (exists x, In x l /\ exists e, f x = Raised e) ->
  comprehension f l = Raised e0.
Proof.
  intros Honly. induction l as [ | x r IH]; intros [x0 [Hin [e He]]];
    [destruct Hin | ].
  simpl. destruct (f x) as [y | e'] eqn:Hx.
  - destruct Hin as [-> | Hin]; [congruence | ].
    rewrite IH; [reflexivity | eauto].
  - now rewrite (Honly x e' Hx).
Qed.

(** X10: whatever list of boundaries the segmentation library returns,
    its last entry (the sentinel) is never looked up.  When every other
    entry is a position [-n <= cp < n] of the series, the operation prints
    one year and draws one mark for each and logs nothing; when one of
    them is not, the IndexError of the lookup is caught and logged as an
    error and nothing is printed or plotted.  It returns [None] either
    way. *)
Theorem detect_change_point_looks_up_interior_positions
  (L : Libs) (w : World) (k : Z) (bkps : list Z) :
  binseg_predict L (Price (price_data w)) k = Returned bkps ->
  let n := List.length (price_data w) in
  (Forall (Derived.in_bounds n) (all_but_last bkps) ->
   exists change_years marks,
     detect_change_point L k w
     = (Returned None,
        with_shown (with_shown w (DetectedYears change_years))
                   (ChangePointFigure (price_data w) marks)) /\
     List.length change_years = List.length (all_but_last bkps) /\
     List.length marks = List.length (all_but_last bkps)) /\
  (Exists (fun cp => ~ Derived.in_bounds n cp) (all_but_last bkps) ->
   detect_change_point L k w
   = (Returned None,
      with_log w (ERROR, ErrorDetectingChangePoints IndexError))).
Proof.
  intros Hlib n.
  assert (Hidx : List.length (index (price_data w)) = n)
    by (unfold index; apply length_map).
  assert (Hpr : List.length (Price (price_data w)) = n)
    by (unfold Price; apply length_map).
  split.
  - intros Hall. rewrite Forall_forall in Hall.
    destruct (comprehension_all
                (fun cp => match iloc (index (price_data w)) cp with
                           | Returned d => Returned (year L d)
                           | Raised e => Raised e
                           end) (all_but_last bkps)) as [years [Hy Hly]].
    { intros cp Hcp. destruct (iloc_in_bounds (index (price_data w)) cp)
        as [d ->]; [rewrite Hidx; auto | eauto]. }
    destruct (comprehension_all
                (fun cp => match iloc (index (price_data w)) cp,
                                 iloc (Price (price_data w)) cp with
                           | Returned d, Returned p => Returned (d, p, year L d)
                           | Raised e, _ => Raised e
                           | _, Raised e => Raised e
                           end) (all_but_last bkps)) as [marks [Hm Hlm]].
    { intros cp Hcp.
      destruct (iloc_in_bounds (index (price_data w)) cp)
        as [d ->]; [rewrite Hidx; auto | ].
      destruct (iloc_in_bounds (Price (price_data w)) cp)
        as [p ->]; [rewrite Hpr; auto | eauto]. }
    exists years, marks. split; [ | split; assumption].
    unfold detect_change_point, try_except, bind, self_price_data, lift,
      show, ret. rewrite Hlib, Hy, Hm. reflexivity.
  - intros Hbad. apply Exists_exists in Hbad.
    destruct Hbad as [cp [Hcp Hout]].
    unfold detect_change_point, try_except, bind, self_price_data, lift.
    rewrite Hlib.
    rewrite (comprehension_some_raise _ _ IndexError).
    + reflexivity.
    + intros x e Hx.
      destruct (iloc (index (price_data w)) x) eqn:Hi; [discriminate | ].
      injection Hx as <-. eapply iloc_raises_index_error. exact Hi.
    + exists cp. split; [exact Hcp | ].
      rewrite iloc_out_of_bounds; [eauto | now rewrite Hidx].
Qed.

(** A segmentation library that answers a position past the series. *)
Example detect_change_point_position_past_the_series :
  detect_change_point
    (mkLibs Demo.to_datetime Demo.year (fun _ _ => Returned [3; 9; 7])
            Demo.pm_sample Demo.ttest_ind)
    2 Demo.world
  = (Returned None,
     with_log Demo.world (ERROR, ErrorDetectingChangePoints IndexError)).
Proof. reflexivity. Qed.

(** X10 on the seven-point series with the boundaries [1, 2, 7]. *)
Lemma detect_change_point_looks_up_interior_positions_witness :
  exists change_years marks,
    detect_change_point Demo.libs 2 Demo.world
    = (Returned None,
       with_shown (with_shown Demo.world (DetectedYears change_years))
                  (ChangePointFigure Demo.series marks)) /\
    List.length change_years = 2%nat /\ List.length marks = 2%nat.
Proof.
  apply (detect_change_point_looks_up_interior_positions
           Demo.libs Demo.world 2 [1; 2; 7]).
  - reflexivity.
  - repeat constructor; unfold Derived.in_bounds; simpl; lia.
Defined.

(** X11: when the Bayesian operation returns an estimate, it is one of
    the dates of the series, it was printed, and the detection was logged
    as information; the series is then not empty. *)
Theorem bayesian_estimate_is_a_date_of_the_series
  (L : Libs) (w : World) (cp_date : Timestamp) :
  result (bayesian_change_point_detection L w) = Returned (Some cp_date) ->
  In cp_date (index (price_data w)) /\
  price_data w <> [] /\
  In (EstimatedChangePointDate cp_date)
     (screen (after (bayesian_change_point_detection L w))) /\
  In (INFO, BayesianDetectedAt cp_date)
     (logger (after (bayesian_change_point_detection L w))).
Proof.
  unfold bayesian_change_point_detection, try_except, bind, self_price_data,
    lift, show, log, ret, result, after.
  destruct (pm_sample L _ 4000 2000 4 42) as [trace | e]; simpl;
    [ | discriminate].
  destruct (Numpy.int _) as [cp | e]; simpl; [ | discriminate].
  destruct (iloc (index (price_data w)) cp) as [d | e] eqn:Hi; simpl;
    [ | discriminate].
  intros H. injection H as <-.
  pose proof (iloc_member _ _ _ Hi) as Hin.
  split; [exact Hin | ]. split.
  - intros Hnil. rewrite Hnil in Hin. destruct Hin.
  - split; apply in_or_app; right; now left.
Qed.

(** X11 on the seven-point series: day 200 is one of its dates. *)
Lemma bayesian_estimate_is_a_date_of_the_series_witness :
  In 200 (index (price_data Demo.world)).
Proof.
  assert (H : result (bayesian_change_point_detection Demo.libs Demo.world)
              = Returned (Some 200)) by (vm_compute; reflexivity).
  exact (proj1 (bayesian_estimate_is_a_date_of_the_series
                  Demo.libs Demo.world 200 H)).
Defined.

End Positions.

(** * The preprocessor *)

Section DownloadUrl.
Import DataPreprocessor.

Lemma split_on_nonempty sep s : Posix.split_on sep s <> [].
Proof.
  destruct s as [ | c r]; simpl; [discriminate | ].
  destruct (Ascii.eqb c sep); [discriminate | ].
  destruct (Posix.split_on sep r); discriminate.
Qed.

Lemma split_on_length sep s :
  List.length (Posix.split_on sep s) = S (Derived.count_char sep s).
Proof.
  induction s as [ | c r IH]; simpl; [reflexivity | ].
  destruct (Ascii.eqb c sep); simpl; [now rewrite IH | ].
  destruct (Posix.split_on sep r) as [ | p ps] eqn:E;
    [now destruct (split_on_nonempty sep r) | ].
  simpl in *. exact IH.
Qed.

Lemma split_on_pieces sep s :
  Forall (fun p => Derived.count_char sep p = 0%nat) (Posix.split_on sep s).
Proof.
  induction s as [ | c r IH]; simpl; [repeat constructor | ].
  destruct (Ascii.eqb c sep) eqn:Ec; [constructor; [reflexivity | exact IH] | ].
  destruct (Posix.split_on sep r) as [ | p ps];
    [repeat constructor; simpl; now rewrite Ec | ].
  inversion IH; subst. constructor; [ | assumption].
  simpl. now rewrite Ec.
Qed.

Lemma split_on_whole sep s :
  Derived.count_char sep s = 0%nat -> Posix.split_on sep s = [s].
Proof.
  induction s as [ | c r IH]; simpl; [reflexivity | ].
  destruct (Ascii.eqb c sep); [discriminate | ].
  intros H. now rewrite (IH H).
Qed.

Lemma split_on_app sep a b :
  Posix.split_on sep (a ++ String sep b)
  = Posix.split_on sep a ++ Posix.split_on sep b.
Proof.
  induction a as [ | c r IH]; simpl.
  - now rewrite Ascii.eqb_refl.
  - destruct (Ascii.eqb c sep); [now rewrite IH | ].
    rewrite IH.
    destruct (Posix.split_on sep r) as [ | p ps] eqn:E;
      [now destruct (split_on_nonempty sep r) | reflexivity].
Qed.

Lemma append_empty (s : string) : (s ++ "")%string = s.
Proof. induction s as [ | c r IH]; simpl; [reflexivity | now rewrite IH]. Qed.

(** X12: the download link is built exactly when the share link has five
    slashes or more, from the piece between the fifth slash and the next
    (a piece without slash); a link with fewer slashes logs 'Invalid
    Google Drive link format.' and raises ValueError, never the
    IndexError of the lookup. *)
Theorem generate_download_url_needs_five_slashes (self : Self) :
  ((5 <= Derived.count_char "/" (drive_link self))%nat ->
   exists file_id,
     _generate_download_url self
     = (Returned (download_prefix ++ file_id)%string, self) /\
     nth_error (Posix.split_on "/" (drive_link self)) 5 = Some file_id /\
     Derived.count_char "/" file_id = 0%nat) /\
  ((Derived.count_char "/" (drive_link self) < 5)%nat ->
   _generate_download_url self
   = (Raised ValueError, logged self ERROR InvalidLinkFormat)).
Proof.
  unfold _generate_download_url.
  pose proof (split_on_length "/" (drive_link self)) as Hlen.
  pose proof (split_on_pieces "/" (drive_link self)) as Hp.
  split; intros H.
  - destruct (nth_error (Posix.split_on "/" (drive_link self)) 5)
      as [file_id | ] eqn:E.
    + exists file_id. repeat split.
      rewrite Forall_forall in Hp. apply Hp. eapply nth_error_In. exact E.
    + apply nth_error_None in E. lia.
  - destruct (nth_error (Posix.split_on "/" (drive_link self)) 5)
      as [file_id | ] eqn:E; [ | reflexivity].
    assert (5 < List.length (Posix.split_on "/" (drive_link self)))%nat
      by (apply nth_error_Some; congruence).
    lia.
Qed.

(** X12 on a link with two slashes. *)
Lemma generate_download_url_needs_five_slashes_witness :
  _generate_download_url (__init__ "drive.google.com/file/1AbC" "../data/" "data.csv")
  = (Raised ValueError,
     logged (__init__ "drive.google.com/file/1AbC" "../data/" "data.csv")
            ERROR InvalidLinkFormat).
Proof.
  apply (generate_download_url_needs_five_slashes
           (__init__ "drive.google.com/file/1AbC" "../data/" "data.csv")).
  simpl. lia.
Defined.

(** X13: for a share link made of a head with four slashes, a slash, a
    file id without slash and then nothing or a slash and anything, the
    download link is the fixed prefix followed by that file id, and
    nothing is logged. *)
Theorem generate_download_url_extracts_the_file_id
  (self : Self) (head file_id rest : string) :
  drive_link self = (head ++ String "/" (file_id ++ rest))%string ->
  Derived.count_char "/" head = 4%nat ->
  Derived.count_char "/" file_id = 0%nat ->
  rest = EmptyString \/ Posix.starts_with_slash rest = true ->
  _generate_download_url self
  = (Returned (download_prefix ++ file_id)%string, self).
Proof.
  intros Hlink Hhead Hid Hrest. unfold _generate_download_url.
  rewrite Hlink, split_on_app.
  assert (Hpieces : exists more,
            Posix.split_on "/" (file_id ++ rest) = file_id :: more).
  { destruct Hrest as [-> | Hs].
    - exists []. rewrite append_empty. now apply split_on_whole.
    - destruct rest as [ | c r]; [discriminate | ]. simpl in Hs.
      apply Ascii.eqb_eq in Hs. subst c.
      exists (Posix.split_on "/" r).
      rewrite split_on_app. now rewrite (split_on_whole _ _ Hid). }
  destruct Hpieces as [more ->].
  rewrite nth_error_app2; rewrite split_on_length, Hhead; [ | lia].
  reflexivity.
Qed.

(** X13 on a link of the usual shape. *)
Lemma generate_download_url_extracts_the_file_id_witness :
  fst (_generate_download_url
         (__init__ "https://drive.google.com/file/d/1AbC/view?usp=sharing"
                   "../data/" "data.csv"))
  = Returned "https://drive.google.com/uc?export=download&id=1AbC"%string.
Proof.
  rewrite (generate_download_url_extracts_the_file_id
             _ "https://drive.google.com/file/d" "1AbC" "/view?usp=sharing");
    try reflexivity.
  right. reflexivity.
Defined.

End DownloadUrl.

Section LoadData.
Import DataPreprocessor.

Ltac self_fields :=
  cbn [drive_link output_dir output_file data logger effects
       logged did set_data failed fst snd].

(** X14: with a share link of fewer than five slashes, [load_data]
    creates the output directory and then fails before any download: the
    caller gets ValueError, the log ends with the invalid-link error and
    the failed-to-load error, nothing was downloaded or read, and
    [self.data] is what it was. *)
Theorem load_data_invalid_link_downloads_nothing (io : Io) (self : Self) :
  makedirs io (output_dir self) = Returned tt ->
  (Derived.count_char "/" (drive_link self) < 5)%nat ->
  exists self',
    load_data io self = (Raised ValueError, self') /\
    effects self' = effects self ++ [MakeDirs (output_dir self)] /\
    data self' = data self /\
    logger self'
    = logger self ++ [(INFO, EnsuredDirectoryExists (output_dir self));
                      (ERROR, InvalidLinkFormat);
                      (ERROR, FailedToLoadData ValueError)].
Proof.
  intros Hmk Hlink. unfold load_data. self_fields.
  rewrite Hmk. unfold _generate_download_url. self_fields.
  destruct (nth_error (Posix.split_on "/" (drive_link self)) 5) as [x | ] eqn:E.
  - assert (5 < List.length (Posix.split_on "/" (drive_link self)))%nat
      by (apply nth_error_Some; congruence).
    rewrite split_on_length in *. lia.
  - eexists. split; [reflexivity | ]. self_fields.
    split; [reflexivity | ]. split; [reflexivity | ].
    now rewrite <- !app_assoc.
Qed.

(** X14 on a link with two slashes. *)
Lemma load_data_invalid_link_downloads_nothing_witness :
  exists self',
    load_data DemoIo.io
      (__init__ "drive.google.com/file/1AbC" "../data/" "data.csv")
    = (Raised ValueError, self') /\
    effects self' = [MakeDirs "../data/"] /\
    data self' = None.
Proof.
  destruct (load_data_invalid_link_downloads_nothing DemoIo.io
              (__init__ "drive.google.com/file/1AbC" "../data/" "data.csv"))
    as [self' [Hrun [He [Hd _]]]].
  - reflexivity.
  - simpl. lia.
  - exists self'. split; [exact Hrun | split; assumption].
Defined.

(** X15: whenever [load_data] fails, at whichever step, the exception
    reaches the caller and the last log record is the error 'Failed to
    load data' with that exception.  Either [self.data] is what it was
    before the call, or the file was read and has no ['Date'] column: the
    exception is then KeyError and [self.data] holds the frame as it was
    read, assigned before the column was looked up. *)
Theorem load_data_failure_is_logged_and_raised
  (io : Io) (self : Self) (e : exn) :
  fst (load_data io self) = Raised e ->
  (exists earlier,
     logger (snd (load_data io self))
     = earlier ++ [(ERROR, FailedToLoadData e)]) /\
  (data (snd (load_data io self)) = data self \/
   exists prices,
     read_csv io (output_file self) = Returned (WithoutDate prices) /\
     e = KeyError /\
     data (snd (load_data io self)) = Some (AsRead (WithoutDate prices))).
Proof.
  unfold load_data. self_fields.
  destruct (makedirs io (output_dir self)) as [[] | e1]; self_fields.
  2:{ intros H. injection H as <-. split; [eexists | left]; reflexivity. }
  unfold _generate_download_url. self_fields.
  destruct (nth_error _ 5) as [file_id | ]; self_fields.
  2:{ intros H. injection H as <-. split; [eexists | left]; reflexivity. }
  destruct (gdown_download io _ _) as [[] | e2]; self_fields.
  2:{ intros H. injection H as <-. split; [eexists | left]; reflexivity. }
  destruct (read_csv io _) as [[csv | prices] | e3]; self_fields.
  - discriminate.
  - intros H. injection H as <-. split; [eexists; reflexivity | ].
    right. exists prices. repeat split.
  - intros H. injection H as <-. split; [eexists | left]; reflexivity.
Qed.

(** X15 on a file without a ['Date'] column: KeyError, and [self.data]
    holds the frame as read. *)
Lemma load_data_failure_is_logged_and_raised_witness :
  fst (load_data DemoIo.io_without_dates
         (__init__ "a/b/c/d/e/1AbC" "../data/" "data.csv"))
  = Raised KeyError /\
  (exists earlier,
     logger (snd (load_data DemoIo.io_without_dates
                    (__init__ "a/b/c/d/e/1AbC" "../data/" "data.csv")))
     = earlier ++ [(ERROR, FailedToLoadData KeyError)]) /\
  data (snd (load_data DemoIo.io_without_dates
               (__init__ "a/b/c/d/e/1AbC" "../data/" "data.csv")))
  = Some (AsRead (WithoutDate [Some 18.63%Q; Some 18.45%Q])).
Proof.
  split; [reflexivity | ].
  destruct (load_data_failure_is_logged_and_raised
              DemoIo.io_without_dates
              (__init__ "a/b/c/d/e/1AbC" "../data/" "data.csv")
              KeyError eq_refl)
    as [Hlog [Hdata | [prices [Hread [_ Hdata]]]]].
  - vm_compute in Hdata. discriminate.
  - split; [exact Hlog | ].
    vm_compute in Hread. injection Hread as <-. exact Hdata.
Defined.

(** A download that fails leaves [self.data] as it was. *)
Example load_data_download_fails :
  data (snd (load_data
               (mkIo (fun _ => Returned tt)
                     (fun _ _ => Raised (LibraryError "ConnectionError"))
                     (fun _ => Returned (WithDate [])) (fun _ => None))
               (__init__ "a/b/c/d/e/1AbC" "../data/" "data.csv")))
  = None.
Proof. reflexivity. Qed.

(** X16: when [load_data] returns a frame, that frame is stored in
    [self.data]; the directory was created, then the file was downloaded
    from the link built from the share link into [output_file], then
    read; and the frame has a row for every row of the file with the
    price untouched: a date that does not parse becomes NaT, the row is
    not dropped. *)
Theorem load_data_returns_the_stored_frame
  (io : Io) (self : Self) (df : LoadedFrame) :
  fst (load_data io self) = Returned df ->
  data (snd (load_data io self)) = Some (Indexed df) /\
  exists url csv,
    fst (_generate_download_url self) = Returned url /\
    read_csv io (output_file self) = Returned (WithDate csv) /\
    effects (snd (load_data io self))
    = effects self ++ [MakeDirs (output_dir self);
                       Download url (output_file self);
                       ReadCsv (output_file self)] /\
    map snd df = map snd csv /\
    map fst df = map (to_datetime_coerce io) (map fst csv).
Proof.
  unfold load_data. self_fields.
  destruct (makedirs io (output_dir self)) as [[] | e1]; self_fields;
    [ | discriminate].
  unfold _generate_download_url. self_fields.
  destruct (nth_error _ 5) as [file_id | ]; self_fields; [ | discriminate].
  destruct (gdown_download io _ _) as [[] | e2]; self_fields; [ | discriminate].
  destruct (read_csv io _) as [[csv | prices] | e3] eqn:Hcsv; self_fields;
    [ | discriminate | discriminate].
  intros H. injection H as <-. split; [reflexivity | ].
  eexists. exists csv. split; [reflexivity | ]. split; [reflexivity | ].
  split; [now rewrite <- !app_assoc | ].
  rewrite !map_map. split; reflexivity.
Qed.

(** X16 on a file of two rows, the second with a date that does not
    parse. *)
Lemma load_data_returns_the_stored_frame_witness :
  data (snd (load_data DemoIo.io
               (__init__ "a/b/c/d/e/1AbC" "../data/" "data.csv")))
  = Some (Indexed [(Some 6348, Some 18.63%Q); (None, Some 18.45%Q)]).
Proof.
  apply (load_data_returns_the_stored_frame DemoIo.io
           (__init__ "a/b/c/d/e/1AbC" "../data/" "data.csv")).
  reflexivity.
Defined.

End LoadData.

(** * The logger set-up *)

Section LoggerSetup.
Import SetupLogger.

(** A logger that has a handler keeps it through a construction. *)
Lemma init_keeps_handlers os log_file log_level logger logger' :
  handlers logger <> [] ->
  __init__ os log_file log_level logger = (Returned tt, logger') ->
  handlers logger' = handlers logger /\
  propagate logger' = propagate logger /\
  level_ logger' = Some log_level.
Proof.
  intros Hh. unfold __init__.
  destruct (makedirs os _) as [[] | e]; [ | discriminate]. simpl.
  destruct (handlers logger) as [ | h hs] eqn:E; [congruence | ].
  intros H. injection H as <-. simpl. repeat split.
Qed.

Lemma construct_all_keeps_handlers os calls : forall logger logger',
  handlers logger <> [] ->
  construct_all os calls logger = (Returned tt, logger') ->
  handlers logger' = handlers logger /\
  propagate logger' = propagate logger /\
  (calls <> [] -> level_ logger' = Some (snd (last calls (""%string, 0)))).
Proof.
  induction calls as [ | [f l] rest IH]; intros logger logger' Hh H.
  - simpl in H. injection H as <-. repeat split. congruence.
  - simpl in H.
    destruct (__init__ os f l logger) as [[[] | e] logger1] eqn:E1;
      [ | discriminate].
    destruct (init_keeps_handlers _ _ _ _ _ Hh E1) as [H1 [H2 H3]].
    destruct (IH logger1 logger' ltac:(congruence) H) as [H4 [H5 H6]].
    split; [congruence | ]. split; [congruence | ]. intros _.
    destruct rest as [ | c rest'].
    + simpl in H. injection H as <-. exact H3.
    + apply H6. discriminate.
Qed.

(** X17: however many [SetupLogger] objects are constructed one after the
    other on the module's logger, starting without handler, the logger
    ends with one handler only: the file and level of the first
    construction.  Later constructions set the logger's level (the last
    one wins) but neither add a handler nor redirect the log to their own
    file; [propagate] is off. *)
Theorem setup_logger_adds_one_handler_only
  (os : Os) (log_file : string) (log_level : Z) (later : list (string * Z))
  (logger logger' : Logger) :
  handlers logger = [] ->
  construct_all os ((log_file, log_level) :: later) logger
  = (Returned tt, logger') ->
  handlers logger' = [(log_file, log_level)] /\
  propagate logger' = false /\
  level_ logger'
  = Some (snd (last ((log_file, log_level) :: later) (""%string, 0))).
Proof.
  intros Hh H. simpl in H.
  destruct (__init__ os log_file log_level logger) as [[[] | e] logger1] eqn:E1;
    [ | discriminate].
  assert (H1 : handlers logger1 = [(log_file, log_level)]
               /\ propagate logger1 = false
               /\ level_ logger1 = Some log_level).
  { unfold __init__ in E1.
    destruct (makedirs os _) as [[] | e]; [ | discriminate]. simpl in E1.
    rewrite Hh in E1.
    destruct (open_log os log_file) as [[] | e]; [ | discriminate].
    injection E1 as <-. repeat split. }
  destruct H1 as [Ha [Hb Hc]].
  destruct (construct_all_keeps_handlers os later logger1 logger'
              ltac:(rewrite Ha; discriminate) H) as [H4 [H5 H6]].
  split; [congruence | ]. split; [congruence | ].
  destruct later as [ | c rest].
  - simpl in H. injection H as <-. exact Hc.
  - apply H6. discriminate.
Qed.

(** X17 with two constructions: the second file gets no handler. *)
Lemma setup_logger_adds_one_handler_only_witness :
  exists logger',
    construct_all (mkOs (fun _ => Returned tt) (fun _ => Returned tt))
      [("logs/app.log"%string, 20); ("logs/notebooks.log"%string, 10)]
      (mkLogger None [] true)
    = (Returned tt, logger') /\
    handlers logger' = [("logs/app.log"%string, 20)] /\
    level_ logger' = Some 10.
Proof.
  eexists. split; [reflexivity | ].
  destruct (setup_logger_adds_one_handler_only
              (mkOs (fun _ => Returned tt) (fun _ => Returned tt))
              "logs/app.log" 20 [("logs/notebooks.log"%string, 10)]
              (mkLogger None [] true) _ eq_refl eq_refl) as [H1 [_ H3]].
  split; [exact H1 | exact H3].
Defined.

Lemma drop_while_all f l :
  forallb f l = true -> Posix.drop_while f l = [].
Proof.
  induction l as [ | c r IH]; simpl; [reflexivity | ].
  destruct (f c); [exact IH | discriminate].
Qed.

Lemma chars_without_slash s :
  Derived.count_char "/" s = 0%nat ->
  forallb (fun c => negb (Posix.is_slash c)) (Posix.chars s) = true.
Proof.
  induction s as [ | c r IH]; simpl; [reflexivity | ].
  unfold Posix.is_slash at 1. destruct (Ascii.eqb c "/"); [discriminate | ].
  exact IH.
Qed.

Lemma dirname_of_bare_name s :
  Derived.count_char "/" s = 0%nat -> Posix.dirname s = EmptyString.
Proof.
  intros H. unfold Posix.dirname.
  rewrite drop_while_all; [reflexivity | ].
  apply forallb_forall. intros c Hc. apply in_rev in Hc.
  pose proof (chars_without_slash s H) as Hall.
  rewrite forallb_forall in Hall. now apply Hall.
Qed.

(** X18: for a log file name without directory part the constructor asks
    [os.makedirs] for the empty path; when that call raises (as CPython's
    does, with FileNotFoundError), the exception reaches the caller and
    the module's logger is left as it was: no level set, no handler
    added. *)
Theorem setup_logger_bare_file_name_fails
  (os : Os) (log_file : string) (log_level : Z) (logger : Logger) (e : exn) :
  Derived.count_char "/" log_file = 0%nat ->
  makedirs os EmptyString = Raised e ->
  __init__ os log_file log_level logger = (Raised e, logger).
Proof.
  intros Hbare Hmk. unfold __init__.
  now rewrite (dirname_of_bare_name _ Hbare), Hmk.
Qed.

(** X18 on the file name [app.log]. *)
Lemma setup_logger_bare_file_name_fails_witness :
  __init__ (mkOs (fun p => match p with
                           | EmptyString =>
                               Raised (LibraryError "FileNotFoundError")
                           | _ => Returned tt
                           end)
                 (fun _ => Returned tt))
           "app.log" 20 (mkLogger None [] true)
  = (Raised (LibraryError "FileNotFoundError"), mkLogger None [] true).
Proof.
  apply setup_logger_bare_file_name_fails; reflexivity.
Defined.

End LoggerSetup.

(** * The visualizer *)

Section YearlyAverage.
Import Pandas DataVisualizer.

Lemma dedup_step a b r :
  dedup (a :: b :: r) = if a =? b then dedup (b :: r) else a :: dedup (b :: r).
Proof. reflexivity. Qed.

Lemma dedup_cons r : forall a, exists t, dedup (a :: r) = a :: t.
Proof.
  induction r as [ | b r IH]; intros a; [exists []; reflexivity | ].
  rewrite dedup_step. destruct (Z.eqb_spec a b) as [-> | _].
  - apply IH.
  - eexists. reflexivity.
Qed.

Lemma dedup_member l y : In y (dedup l) <-> In y l.
Proof.
  induction l as [ | a r IH]; [tauto | ].
  destruct r as [ | b r']; [tauto | ].
  rewrite dedup_step. destruct (Z.eqb_spec a b) as [-> | _].
  - rewrite IH. simpl. tauto.
  - change (In y (a :: dedup (b :: r'))) with (a = y \/ In y (dedup (b :: r'))).
    rewrite IH. simpl. tauto.
Qed.

Lemma dedup_increasing l :
  StronglySorted Z.le l -> increasing (dedup l) = true.
Proof.
  intros H. induction H as [ | a r Hr IH Ha]; [reflexivity | ].
  destruct r as [ | b r']; [reflexivity | ].
  rewrite dedup_step. destruct (Z.eqb_spec a b) as [-> | Hne]; [exact IH | ].
  destruct (dedup_cons r' b) as [t Ht]. rewrite Ht in *.
  cbn [increasing]. apply andb_true_iff. split; [ | exact IH].
  apply Z.ltb_lt. inversion Ha; subst. lia.
Qed.

Lemma increasing_nodup l : increasing l = true -> NoDup l.
Proof.
  induction l as [ | a r IH]; intros H; constructor.
  - intros Hin. pose proof (increasing_head_lt _ _ H a Hin). lia.
  - apply IH. eapply increasing_tail. exact H.
Qed.

Lemma Qsum_map_ext {A} (f g : A -> Q) (l : list A) :
  (forall x, (f x == g x)%Q) -> (Qsum (map f l) == Qsum (map g l))%Q.
Proof.
  intros H. induction l as [ | a r IH]; simpl; [reflexivity | ].
  fold (Qsum (map f r)). fold (Qsum (map g r)). now rewrite H, IH.
Qed.

Lemma Qsum_map_plus {A} (f g : A -> Q) (l : list A) :
  (Qsum (map (fun x => f x + g x) l) == Qsum (map f l) + Qsum (map g l))%Q.
Proof.
  induction l as [ | a r IH]; simpl; [ring | ].
  fold (Qsum (map (fun x => (f x + g x)%Q) r)).
  fold (Qsum (map f r)). fold (Qsum (map g r)). rewrite IH. ring.
Qed.

Lemma Qsum_indicator (k : Z) (p : Q) (keys : list Z) :
  NoDup keys -> In k keys ->
  (Qsum (map (fun y => if k =? y then p else 0) keys) == p)%Q.
Proof.
  intros Hnd. induction Hnd as [ | a r Ha Hr IH]; intros Hin; [destruct Hin | ].
  simpl. fold (Qsum (map (fun y => if k =? y then p else 0%Q) r)).
  destruct (Z.eqb_spec k a) as [-> | Hne].
  - assert (Hz : (Qsum (map (fun y => if a =? y then p else 0%Q) r) == 0)%Q).
    { clear IH Hin Hr. induction r as [ | b r IH]; simpl; [reflexivity | ].
      fold (Qsum (map (fun y => if a =? y then p else 0%Q) r)).
      destruct (Z.eqb_spec a b) as [-> | _]; [simpl in Ha; tauto | ].
      rewrite IH; [ring | ]. simpl in Ha. tauto. }
    rewrite Hz. ring.
  - destruct Hin as [-> | Hin]; [congruence | ].
    rewrite (IH Hin). ring.
Qed.

Lemma Qsum_zeros {A} (l : list A) : (Qsum (map (fun _ => 0) l) == 0)%Q.
Proof.
  induction l as [ | a r IH]; [reflexivity | ].
  change (Qsum (map (fun _ : A => 0%Q) (a :: r)))
    with (0 + Qsum (map (fun _ : A => 0%Q) r))%Q.
  rewrite IH. ring.
Qed.

(** The sums of the groups add up to the sum of the column. *)
Lemma group_sums (key : Timestamp * Q -> Z) (keys : list Z) df :
  NoDup keys ->
  (forall r, In r df -> In (key r) keys) ->
  (Qsum (map (fun y => Qsum (Price (filter (fun r => key r =? y) df))) keys)
   == Qsum (Price df))%Q.
Proof.
  intros Hnd. induction df as [ | row r IH]; intros Hin.
  - change (Qsum (Price [])) with 0%Q.
    rewrite (Qsum_map_ext _ (fun _ => 0%Q)); [apply Qsum_zeros | ].
    intros y. reflexivity.
  - rewrite (Qsum_map_ext _
               (fun y => (if key row =? y then snd row else 0)
                         + Qsum (Price (filter (fun r0 => key r0 =? y) r)))%Q).
    + rewrite Qsum_map_plus, Qsum_indicator, IH.
      * reflexivity.
      * intros r0 H0. apply Hin. now right.
      * exact Hnd.
      * apply Hin. now left.
    + intros y. cbn [filter]. destruct (key row =? y); simpl; ring.
Qed.

Lemma count_times_mean (l : list Q) :
  (inject_Z (Z.of_nat (List.length l)) * fillna 0 (mean l) == Qsum l)%Q.
Proof.
  destruct l as [ | a r]; [simpl; ring | ].
  cbn [mean fillna]. field.
  intros H. unfold Qeq in H. simpl in H. lia.
Qed.

(** X19: the table of yearly averages has one bar for each calendar year
    that occurs among the dates, in increasing order of the years; each
    bar is the mean of the prices of that year and is a number; and the
    averages weighted by the number of observations of their year add up
    to the sum of all prices.  It is what the method shows when the
    drawing succeeds. *)
Theorem yearly_average_one_bar_per_year (g : Graphics) (self : Self) :
  let df := rows (data self) in
  let of_year := fun y => filter (fun r => year g (fst r) =? y) df in
  let bars := yearly_average g df in
  increasing (map fst bars) = true /\
  (forall y, In y (map fst bars) <-> exists r, In r df /\ year g (fst r) = y) /\
  (forall y avg, In (y, avg) bars ->
     avg = mean (Price (of_year y)) /\ avg <> NaN) /\
  (Qsum (map (fun bar =>
                inject_Z (Z.of_nat (List.length (of_year (fst bar))))
                * fillna 0 (snd bar)) bars)
   == Qsum (Price df))%Q /\
  (draw g (YearlyAverage bars) = Returned tt ->
   screen (snd (plot_yearly_average g self))
   = screen self ++ [Figure (YearlyAverage bars)]).
Proof.
  intros df of_year bars.
  set (keys := group_keys (map (fun r => year g (fst r)) df)).
  assert (Hfst : map fst bars = keys).
  { unfold bars, yearly_average. rewrite map_map. simpl. apply map_id. }
  assert (Hmem : forall y, In y keys <-> exists r, In r df /\ year g (fst r) = y).
  { intros y. unfold keys, group_keys.
    rewrite dedup_member, sort_member, in_map_iff.
    split; intros [r [H1 H2]]; exists r; tauto. }
  assert (Hinc : increasing keys = true)
    by (apply dedup_increasing, sort_sorted).
  split; [now rewrite Hfst | ]. split; [now rewrite Hfst | ].
  split; [ | split].
  - intros y avg Hin. unfold bars, yearly_average in Hin.
    apply in_map_iff in Hin. destruct Hin as [y0 [Heq Hy0]].
    injection Heq as -> <-. split; [reflexivity | ].
    apply Hmem in Hy0. destruct Hy0 as [r [Hr Hy]].
    assert (Hg : In r (of_year y)).
    { unfold of_year. apply filter_In. split; [exact Hr | ].
      now apply Z.eqb_eq. }
    fold (of_year y). destruct (of_year y) as [ | r0 l0]; [destruct Hg | ].
    discriminate.
  - unfold bars, yearly_average. rewrite map_map. cbn [fst snd].
    fold keys.
    rewrite (Qsum_map_ext _ (fun y => Qsum (Price (of_year y)))).
    + apply group_sums; [now apply increasing_nodup | ].
      intros r Hr. apply Hmem. eauto.
    + intros y. rewrite <- (count_times_mean (Price (of_year y))).
      unfold Price. now rewrite length_map.
  - intros Hdraw. unfold plot_yearly_average, plot. fold df. fold bars.
    rewrite Hdraw. reflexivity.
Qed.

(** X19 on the seven-point series: the days 20 to 290 fall in 1970, day
    380 in 1971. *)
Lemma yearly_average_one_bar_per_year_witness :
  map fst (yearly_average DemoIo.graphics Demo.series) = [1970; 1971] /\
  increasing (map fst (yearly_average DemoIo.graphics Demo.series)) = true.
Proof.
  split; [reflexivity | ].
  exact (proj1 (yearly_average_one_bar_per_year
                  DemoIo.graphics DemoIo.visualizer)).
Defined.

End YearlyAverage.

Section VisualizerData.
Import Pandas DataVisualizer.

(** X20: of the visualizer's plot methods only [plot_rolling_volatility]
    writes to [self.data], and only the column ['Rolling_Volatility']:
    the dates and prices stay.  Once the rolling deviation was computed
    the column is stored, also when the drawing then fails; when its
    computation raises, the frame is left as it was.  None of the methods
    raises. *)
Theorem visualizer_writes_only_the_volatility_column
  (g : Graphics) (window : Z) (self : Self) :
  data (snd (plot_box g self)) = data self /\
  data (snd (plot_price_over_time g self)) = data self /\
  data (snd (plot_price_distribution g self)) = data self /\
  data (snd (plot_yearly_average g self)) = data self /\
  rows (data (snd (plot_rolling_volatility g window self)))
  = rows (data self) /\
  (forall volatility,
     rolling_std g window (Price (rows (data self))) = Returned volatility ->
     Rolling_Volatility (data (snd (plot_rolling_volatility g window self)))
     = Some volatility) /\
  (forall e,
     rolling_std g window (Price (rows (data self))) = Raised e ->
     data (snd (plot_rolling_volatility g window self)) = data self) /\
  fst (plot_rolling_volatility g window self) = Returned tt.
Proof.
  unfold plot_box, plot_price_over_time, plot_price_distribution,
    plot_yearly_average, plot_rolling_volatility, plot.
  split; [destruct (draw g _); reflexivity | ].
  split; [destruct (draw g _); reflexivity | ].
  split; [destruct (draw g _); reflexivity | ].
  split; [destruct (draw g _); reflexivity | ].
  destruct (rolling_std g window (Price (rows (data self)))) as [v | e].
  - cbn [data rows]. destruct (draw g _); cbn.
    + repeat split; try reflexivity; intros ? H; now inversion H.
    + repeat split; try reflexivity; intros ? H; now inversion H.
  - cbn. repeat split; try reflexivity; intros ? H; now inversion H.
Qed.

(** X20 on the seven-point series with the window of 30 days: the
    drawing fails and the column of NaN is stored all the same. *)
Lemma visualizer_writes_only_the_volatility_column_witness :
  Rolling_Volatility
    (data (snd (plot_rolling_volatility DemoIo.graphics 30 DemoIo.visualizer)))
  = Some (repeat NaN 7) /\
  exists html,
    screen (snd (plot_rolling_volatility DemoIo.graphics 30 DemoIo.visualizer))
    = [Html html].
Proof.
  split.
  - apply (visualizer_writes_only_the_volatility_column
             DemoIo.graphics 30 DemoIo.visualizer).
    reflexivity.
  - eexists. reflexivity.
Defined.

End VisualizerData.
